(** * Picture classifier: the image submission pipeline and its screen state

  A shallow embedding of [pictureclassifier/app/(tabs)/index.tsx].  The file
  holds two variants of the home screen:

  - the first one ("Garbage Detection & Classification App"), whose pipeline
    is [classifyImageViaApi] and whose handler is the [handleClassify] with a
    [catch] clause;
  - the second one ("Road Detection & Classification App"), whose pipeline is
    [mockModelInference] and whose [handleClassify] only has a [finally].

  JavaScript strings are modelled as [string] (sequences of 8-bit
  characters), JavaScript numbers as IEEE 754 binary64 [float]s, thrown
  values as [exn], and an [async] function as the function from the outcome
  of the promises it awaits to its own outcome. *)

From Stdlib Require Import List String Ascii Bool ZArith Lia PrimFloat.
Import ListNotations.
Local Open Scope string_scope.

Set Implicit Arguments.
Set Warnings "-register-all".

(** A decimal constant such as [0.425] denotes the nearest binary64 value,
    as it does in JavaScript. *)
Set Warnings "-inexact-float".

(** ** JavaScript strings *)

Module JsString.

(** [String.prototype.split] with a one-character separator: the pieces
    between the occurrences of the separator; never an empty array. *)
Fixpoint split (sep : ascii) (s : string) : list string :=
  match s with
  | EmptyString => [EmptyString]
  | String c rest =>
      if Ascii.eqb c sep then EmptyString :: split sep rest
      else match split sep rest with
           | piece :: pieces => String c piece :: pieces
           | [] => [String c EmptyString]
           end
  end.

(** [Array.prototype.pop]: the last element, [undefined] (here [None]) on an
    empty array. *)
Fixpoint pop (pieces : list string) : option string :=
  match pieces with
  | [] => None
  | [piece] => Some piece
  | _ :: rest => pop rest
  end.

(** [toLowerCase] on one character: the letters A to Z are moved to a to z,
    every other character is kept.  (No character outside A-Z is lowered by
    JavaScript to one of the letters of [png], [heic] or [webp], so the
    comparisons of the extension come out the same.) *)
Definition lower_char (c : ascii) : ascii :=
  let n := nat_of_ascii c in
  if (65 <=? n)%nat && (n <=? 90)%nat then ascii_of_nat (n + 32) else c.

Fixpoint toLowerCase (s : string) : string :=
  match s with
  | EmptyString => EmptyString
  | String c rest => String (lower_char c) (toLowerCase rest)
  end.

(** [a ?? b] where [a] is a string or [undefined]. *)
Definition nullish {A : Type} (a : option A) (b : A) : A :=
  match a with
  | Some v => v
  | None => b
  end.

(** [a || b] on strings: the empty string is the only falsy string. *)
Definition or_else (a b : string) : string :=
  match a with
  | EmptyString => b
  | String _ _ => a
  end.

Fixpoint contains (c : ascii) (s : string) : bool :=
  match s with
  | EmptyString => false
  | String d rest => Ascii.eqb d c || contains c rest
  end.

End JsString.

(** ** File name and MIME type ([index.tsx] lines 101-111 and 716-726) *)

Module Mime.
Import JsString.

(** [uri.split('/').pop() ?? fallback] *)
Definition fileNameOf (fallback uri : string) : string :=
  nullish (pop (split "/" uri)) fallback.

(** [fileName.split('.').pop()?.toLowerCase()] *)
Definition extensionOf (fileName : string) : option string :=
  option_map toLowerCase (pop (split "." fileName)).

(** The chain of conditionals that picks the MIME type. *)
Definition mimeTypeOfExtension (extension : option string) : string :=
  match extension with
  | Some e =>
      if String.eqb e "png" then "image/png"
      else if String.eqb e "heic" then "image/heic"
      else if String.eqb e "webp" then "image/webp"
      else "image/jpeg"
  | None => "image/jpeg"
  end.

Definition mimeType (fileName : string) : string :=
  mimeTypeOfExtension (extensionOf fileName).

(** The specification's reading of "extension": the text after the last dot
    of the file name, and no extension at all when the name has no dot. *)
Fixpoint spec_after_last_dot (s : string) : option string :=
  match s with
  | EmptyString => None
  | String c rest =>
      match spec_after_last_dot rest with
      | Some e => Some e
      | None => if Ascii.eqb c "." then Some rest else None
      end
  end.

Definition spec_extension (fileName : string) : option string :=
  option_map toLowerCase (spec_after_last_dot fileName).

(** "[png], [heic], [webp] to their corresponding image MIME types, and
    [image/jpeg] for anything unrecognized or absent" *)
Definition spec_recognized : list (string * string) :=
  [("png", "image/png"); ("heic", "image/heic"); ("webp", "image/webp")].

Fixpoint spec_lookup (table : list (string * string)) (extension : string)
  : option string :=
  match table with
  | [] => None
  | (known, mime) :: rest =>
      if String.eqb known extension then Some mime
      else spec_lookup rest extension
  end.

Definition spec_mimeType (fileName : string) : string :=
  match spec_extension fileName with
  | Some extension =>
      match spec_lookup spec_recognized extension with
      | Some mime => mime
      | None => "image/jpeg"
      end
  | None => "image/jpeg"
  end.

End Mime.

(** ** JavaScript values, thrown values and the outcome of a promise *)

Module Js.

(** What [response.json()] can resolve to. *)
Inductive jsonValue : Type :=
| JNull
| JBool (b : bool)
| JNum (n : float)
| JStr (s : string)
| JArr (items : list jsonValue)
| JObj (fields : list (string * jsonValue)).

Inductive errorKind : Type := PlainError | TypeError | SyntaxError.

(** A thrown value: an instance of [Error] with its [message], or anything
    else. *)
Inductive exn : Type :=
| ErrorObject (kind : errorKind) (message : string)
| Thrown (v : jsonValue).

(** The outcome of an expression that may throw, and of an awaited promise:
    fulfilled with a value or rejected with a reason. *)
Inductive result (A : Type) : Type :=
| Ok (a : A)
| Throw (e : exn).

Arguments Throw {A} e.

Definition bind {A B : Type} (m : result A) (k : A -> result B) : result B :=
  match m with
  | Ok a => k a
  | Throw e => Throw e
  end.

(** [try { body } catch (err) { handler }] *)
Definition tryCatch {A : Type} (body : result A) (handler : exn -> result A)
  : result A :=
  match body with
  | Ok a => Ok a
  | Throw e => handler e
  end.

(** The own property [k] of an object parsed from JSON; the first binding of
    a key is the one the object holds. *)
Fixpoint assoc (k : string) (fields : list (string * jsonValue))
  : option jsonValue :=
  match fields with
  | [] => None
  | (k', v) :: rest => if String.eqb k' k then Some v else assoc k rest
  end.

(** [data.k] for the keys the pipelines read ([label], [predicted_class],
    [confidence], [confidence_percent]), none of which is a member of a
    prototype, an index or [length]: reading it off [null] throws a
    [TypeError] (with the engine's message), an object gives its own
    property, every other value gives [undefined] (here [None]). *)
Definition getProp (data : jsonValue) (k : string) : result (option jsonValue) :=
  match data with
  | JNull =>
      Throw (ErrorObject TypeError ("Cannot read property '" ++ k ++ "' of null"))
  | JObj fields => Ok (assoc k fields)
  | JBool _ | JNum _ | JStr _ | JArr _ => Ok None
  end.

(** [error instanceof Error ? error.message : fallback] *)
Definition messageOr (error : exn) (fallback : string) : string :=
  match error with
  | ErrorObject _ message => message
  | Thrown _ => fallback
  end.

(** [Boolean(s)] and [!!s] for [s : string | null]: [null] and the empty
    string are falsy. *)
Definition truthy (s : option string) : bool :=
  match s with
  | Some (String _ _) => true
  | Some EmptyString | None => false
  end.

End Js.

Declare Scope js_scope.
Delimit Scope js_scope with js.
Notation "x <- m ;; k" := (Js.bind m (fun x => k))
  (at level 61, m at next level, right associativity) : js_scope.

(** ** The HTTP exchange *)

Module Http.
Import Js.

(** The file object appended to the form data. *)
Record FilePart : Type := mkFilePart {
  uri : string;
  name : string;
  type : string
}.

(** A [fetch] call with a multipart body of one file field. *)
Record Request : Type := mkRequest {
  url : string;
  method : string;
  field : string;
  file : FilePart
}.

(** A response: its status, and what [response.text()] and
    [response.json()] settle to. *)
Record Response : Type := mkResponse {
  status : Z;
  text : result string;
  json : result jsonValue
}.

(** [response.ok]: the status is in the range 200-299. *)
Definition ok (response : Response) : bool :=
  (200 <=? status response)%Z && (status response <=? 299)%Z.

(** The network: [fetch] resolves to a response or rejects. *)
Definition Fetch : Type := Request -> result Response.

End Http.

(** ** The two submission pipelines *)

Module Pipeline.
Import JsString Mime Js Http.
Local Open Scope js_scope.

Record Prediction : Type := mkPrediction {
  label : jsonValue;
  confidence : float
}.

Definition API_ENDPOINT : string := "http://10.5.32.231:5000/predict".

(** Lines 130-135 and 746-751, the same expression in both variants:
    [typeof data.confidence_percent === 'number' ? data.confidence_percent
     : typeof data.confidence === 'number' ? data.confidence * 100 : 0] *)
Definition percentOf (data : jsonValue) : result float :=
  confidence_percent <- getProp data "confidence_percent" ;;
  match confidence_percent with
  | Some (JNum n) => Ok n
  | _ =>
      confidence <- getProp data "confidence" ;;
      match confidence with
      | Some (JNum n) => Ok (n * 100)%float
      | _ => Ok 0%float
      end
  end.

(** *** First variant: [classifyImageViaApi] (lines 99-141) *)

Definition apiRequest (uri : string) : Request :=
  let fileName := fileNameOf "upload.jpg" uri in
  let mimeType := mimeType fileName in
  {| url := API_ENDPOINT;
     method := "POST";
     field := "image";
     file := {| uri := uri; name := fileName; type := mimeType |} |}.

(** [typeof data.label === 'string' ? data.label : 'Unknown'] *)
Definition apiLabelOf (data : jsonValue) : result jsonValue :=
  l <- getProp data "label" ;;
  match l with
  | Some (JStr s) => Ok (JStr s)
  | _ => Ok (JStr "Unknown")
  end.

Definition classifyImageViaApi (fetch : Fetch) (uri : string)
  : result Prediction :=
  response <- fetch (apiRequest uri) ;;
  if negb (ok response) then
    message <- text response ;;
    Throw (ErrorObject PlainError (or_else message "Unable to classify image."))
  else
    data <- json response ;;
    percent <- percentOf data ;;
    l <- apiLabelOf data ;;
    Ok {| label := l; confidence := (percent / 100)%float |}.

(** *** Second variant: [mockModelInference] (lines 712-761) *)

Definition mockRequest (imageUri : string) : Request :=
  let fileName := fileNameOf "image.jpg" imageUri in
  let mimeType := mimeType fileName in
  {| url := "http://10.5.32.231:5000/predict";
     method := "POST";
     field := "file";
     file := {| uri := imageUri; name := fileName; type := mimeType |} |}.

(** [a ?? b] on a property value: [undefined] and [null] give way to [b]. *)
Definition coalesce (a : option jsonValue) (b : jsonValue) : jsonValue :=
  match a with
  | None | Some JNull => b
  | Some v => v
  end.

(** [data.predicted_class ?? data.label ?? 'Unknown']: [data.label] is read
    only when [data.predicted_class] is [undefined] or [null]. *)
Definition mockLabelOf (data : jsonValue) : result jsonValue :=
  predicted_class <- getProp data "predicted_class" ;;
  match predicted_class with
  | None | Some JNull =>
      l <- getProp data "label" ;;
      Ok (coalesce l (JStr "Unknown"))
  | Some v => Ok v
  end.

(** The [catch] clause logs the error on the console and throws it again. *)
Definition mockModelInference (fetch : Fetch) (imageUri : string)
  : result Prediction :=
  tryCatch
    (response <- fetch (mockRequest imageUri) ;;
     if negb (ok response) then
       msg <- text response ;;
       Throw (ErrorObject PlainError (or_else msg "Failed to classify image."))
     else
       data <- json response ;;
       percent <- percentOf data ;;
       l <- mockLabelOf data ;;
       Ok {| label := l; confidence := percent |})
    (fun err => Throw err).

(** *** The specification's words, for comparison *)

(** The field [k] of a response body: an object's own property. *)
Definition fieldOf (data : jsonValue) (k : string) : option jsonValue :=
  match data with
  | JObj fields => assoc k fields
  | _ => None
  end.

Definition isNumeric (v : option jsonValue) : bool :=
  match v with
  | Some (JNum _) => true
  | _ => false
  end.

Definition isString (v : option jsonValue) : bool :=
  match v with
  | Some (JStr _) => true
  | _ => false
  end.

(** "pick whichever is present and numeric; default to 0 if neither is
    present or neither is numeric", [confidence_percent] first. *)
Definition spec_percent (data : jsonValue) : float :=
  match fieldOf data "confidence_percent", fieldOf data "confidence" with
  | Some (JNum p), _ => p
  | _, Some (JNum c) => (c * 100)%float
  | _, _ => 0%float
  end.

(** "that text if non-empty, else a generic fallback message" *)
Definition spec_errorMessage (fallback body : string) : string :=
  if String.eqb body "" then fallback else body.

(** "default to Unknown if absent or not a string", for the field [k]. *)
Definition spec_label (k : string) (data : jsonValue) : jsonValue :=
  match fieldOf data k with
  | Some (JStr s) => JStr s
  | _ => JStr "Unknown"
  end.

End Pipeline.

(** ** The screens

    A screen is its React state.  An event handler runs on the state the
    last render committed, and the updates it makes are committed before the
    next event is handled; an [async] handler runs up to its [await], and
    its continuation runs as an event of its own when the awaited promise
    settles.  The submissions whose promise has not settled yet are kept in
    [pending]. *)

Module Garbage.
Import Js Http Pipeline.

Record Screen : Type := mkScreen {
  imageUri : option string;
  prediction : option Prediction;
  isClassifying : bool;
  cameraVisible : bool;
  resultModalVisible : bool
}.

Definition setImageUri (v : option string) (s : Screen) : Screen :=
  {| imageUri := v; prediction := prediction s;
     isClassifying := isClassifying s; cameraVisible := cameraVisible s;
     resultModalVisible := resultModalVisible s |}.

Definition setPrediction (v : option Prediction) (s : Screen) : Screen :=
  {| imageUri := imageUri s; prediction := v;
     isClassifying := isClassifying s; cameraVisible := cameraVisible s;
     resultModalVisible := resultModalVisible s |}.

Definition setIsClassifying (v : bool) (s : Screen) : Screen :=
  {| imageUri := imageUri s; prediction := prediction s;
     isClassifying := v; cameraVisible := cameraVisible s;
     resultModalVisible := resultModalVisible s |}.

Definition setCameraVisible (v : bool) (s : Screen) : Screen :=
  {| imageUri := imageUri s; prediction := prediction s;
     isClassifying := isClassifying s; cameraVisible := v;
     resultModalVisible := resultModalVisible s |}.

Definition setResultModalVisible (v : bool) (s : Screen) : Screen :=
  {| imageUri := imageUri s; prediction := prediction s;
     isClassifying := isClassifying s; cameraVisible := cameraVisible s;
     resultModalVisible := v |}.

(** The screen, the submissions in flight (the image each one was called
    with) and the alerts shown so far, latest first. *)
Record App : Type := mkApp {
  screen : Screen;
  pending : list string;
  alerts : list (string * string)
}.

Definition onScreen (f : Screen -> Screen) (a : App) : App :=
  {| screen := f (screen a); pending := pending a; alerts := alerts a |}.

Definition alert (title message : string) (a : App) : App :=
  {| screen := screen a; pending := pending a;
     alerts := (title, message) :: alerts a |}.

Definition submit (uri : string) (a : App) : App :=
  {| screen := screen a; pending := pending a ++ [uri]; alerts := alerts a |}.

Fixpoint removeAt (i : nat) (l : list string) : list string :=
  match l, i with
  | [], _ => []
  | _ :: rest, O => rest
  | x :: rest, S j => x :: removeAt j rest
  end.

Definition settled (i : nat) (a : App) : App :=
  {| screen := screen a; pending := removeAt i (pending a);
     alerts := alerts a |}.

Definition initial : App :=
  {| screen := {| imageUri := None; prediction := None;
                  isClassifying := false; cameraVisible := false;
                  resultModalVisible := false |};
     pending := []; alerts := [] |}.

(** [const hasImage = Boolean(imageUri)] *)
Definition hasImage (s : Screen) : bool := truthy (imageUri s).

(** [handleClassify] (lines 143-159) up to its [await]: the guard on the
    image, then [setIsClassifying(true)] and the call of the pipeline. *)
Definition handleClassify_call (a : App) : App :=
  match imageUri (screen a) with
  | None | Some EmptyString =>
      alert "No image" "Pick or capture an image before classifying." a
  | Some uri => submit uri (onScreen (setIsClassifying true) a)
  end.

(** [handleClassify] from the point where the pipeline has settled: the rest
    of the [try] block or the [catch] clause, then the [finally] clause. *)
Definition handleClassify_settle (outcome : result Prediction) (a : App) : App :=
  let a' :=
    match outcome with
    | Ok r =>
        onScreen (setResultModalVisible true)
          (onScreen (setPrediction (Some r)) a)
    | Throw error =>
        alert "Classification failed"
          (messageOr error "Something went wrong.") a
    end in
  onScreen (setIsClassifying false) a'.

(** [handleClassify] run in one go, nothing else happening while the
    pipeline is awaited. *)
Definition handleClassify (fetch : Fetch) (a : App) : App :=
  match imageUri (screen a) with
  | None | Some EmptyString =>
      alert "No image" "Pick or capture an image before classifying." a
  | Some uri =>
      let a1 := onScreen (setIsClassifying true) a in
      let a2 :=
        match classifyImageViaApi fetch uri with
        | Ok r =>
            onScreen (setResultModalVisible true)
              (onScreen (setPrediction (Some r)) a1)
        | Throw error =>
            alert "Classification failed"
              (messageOr error "Something went wrong.") a1
        end in
      onScreen (setIsClassifying false) a2
  end.

(** The Classify button: [disabled={!hasImage || isClassifying}]. *)
Definition classifyDisabled (s : Screen) : bool :=
  negb (hasImage s) || isClassifying s.

Inductive event : Type :=
| PressClassify
| FetchSettles (i : nat) (outcome : result Response)
| PhotoCaptured (uri : string)
| ImagePicked (uri : string)
| CameraOpened
| CameraCancelled
| ResultDismissed.

Definition step (a : App) (e : event) : App :=
  match e with
  | PressClassify =>
      if classifyDisabled (screen a) then a else handleClassify_call a
  | FetchSettles i outcome =>
      match nth_error (pending a) i with
      | Some uri =>
          handleClassify_settle
            (classifyImageViaApi (fun _ => outcome) uri) (settled i a)
      | None => a
      end
  | PhotoCaptured uri =>
      onScreen (fun s =>
        setCameraVisible false
          (setResultModalVisible false
            (setPrediction None (setImageUri (Some uri) s)))) a
  | ImagePicked uri =>
      onScreen (fun s =>
        setResultModalVisible false
          (setPrediction None (setImageUri (Some uri) s))) a
  | CameraOpened => onScreen (setCameraVisible true) a
  | CameraCancelled => onScreen (setCameraVisible false) a
  | ResultDismissed => onScreen (setResultModalVisible false) a
  end.

Definition run (events : list event) : App := fold_left step events initial.

Definition isSettle (e : event) : bool :=
  match e with
  | FetchSettles _ _ => true
  | _ => false
  end.

(** The flag is set exactly while one submission is in flight. *)
Definition flagCountsPending (a : App) : Prop :=
  List.length (pending a) = if isClassifying (screen a) then 1 else 0.

End Garbage.

Module Road.
Import Js Http Pipeline.

Inductive facing : Type := back | front.

Record ImageMeta : Type := mkImageMeta {
  width : option float;
  height : option float;
  sizeMB : option float
}.

Record Screen : Type := mkScreen {
  selectedImageUri : option string;
  prediction : option Prediction;
  isClassifying : bool;
  isCameraVisible : bool;
  cameraFacing : facing;
  imageMeta : option ImageMeta
}.

Definition setSelectedImageUri (v : option string) (s : Screen) : Screen :=
  {| selectedImageUri := v; prediction := prediction s;
     isClassifying := isClassifying s; isCameraVisible := isCameraVisible s;
     cameraFacing := cameraFacing s; imageMeta := imageMeta s |}.

Definition setPrediction (v : option Prediction) (s : Screen) : Screen :=
  {| selectedImageUri := selectedImageUri s; prediction := v;
     isClassifying := isClassifying s; isCameraVisible := isCameraVisible s;
     cameraFacing := cameraFacing s; imageMeta := imageMeta s |}.

Definition setIsClassifying (v : bool) (s : Screen) : Screen :=
  {| selectedImageUri := selectedImageUri s; prediction := prediction s;
     isClassifying := v; isCameraVisible := isCameraVisible s;
     cameraFacing := cameraFacing s; imageMeta := imageMeta s |}.

Definition setIsCameraVisible (v : bool) (s : Screen) : Screen :=
  {| selectedImageUri := selectedImageUri s; prediction := prediction s;
     isClassifying := isClassifying s; isCameraVisible := v;
     cameraFacing := cameraFacing s; imageMeta := imageMeta s |}.

Definition setCameraFacing (f : facing -> facing) (s : Screen) : Screen :=
  {| selectedImageUri := selectedImageUri s; prediction := prediction s;
     isClassifying := isClassifying s; isCameraVisible := isCameraVisible s;
     cameraFacing := f (cameraFacing s); imageMeta := imageMeta s |}.

Definition setImageMeta (v : option ImageMeta) (s : Screen) : Screen :=
  {| selectedImageUri := selectedImageUri s; prediction := prediction s;
     isClassifying := isClassifying s; isCameraVisible := isCameraVisible s;
     cameraFacing := cameraFacing s; imageMeta := v |}.

(** The screen, the submissions in flight and the rejections of
    [handleClassify] that nothing handles, latest first. *)
Record App : Type := mkApp {
  screen : Screen;
  pending : list string;
  unhandled : list exn
}.

Definition onScreen (f : Screen -> Screen) (a : App) : App :=
  {| screen := f (screen a); pending := pending a; unhandled := unhandled a |}.

Definition reject (e : exn) (a : App) : App :=
  {| screen := screen a; pending := pending a; unhandled := e :: unhandled a |}.

Definition submit (uri : string) (a : App) : App :=
  {| screen := screen a; pending := pending a ++ [uri];
     unhandled := unhandled a |}.

Definition settled (i : nat) (a : App) : App :=
  {| screen := screen a; pending := Garbage.removeAt i (pending a);
     unhandled := unhandled a |}.

Definition initial : App :=
  {| screen := {| selectedImageUri := None; prediction := None;
                  isClassifying := false; isCameraVisible := false;
                  cameraFacing := back; imageMeta := None |};
     pending := []; unhandled := [] |}.

Definition hasImage (s : Screen) : bool := truthy (selectedImageUri s).

(** [updateImageState] (lines 508-512) *)
Definition updateImageState (uri : option string) (meta : option ImageMeta)
  (s : Screen) : Screen :=
  setPrediction None (setImageMeta meta (setSelectedImageUri uri s)).

(** [handleClassify] (lines 579-592) up to its [await]. *)
Definition handleClassify_call (a : App) : App :=
  match selectedImageUri (screen a) with
  | None | Some EmptyString => a
  | Some uri =>
      submit uri
        (onScreen (setPrediction None) (onScreen (setIsClassifying true) a))
  end.

(** [handleClassify] from the point where the pipeline has settled: the rest
    of the [try] block, then the [finally] clause; an error is not caught. *)
Definition handleClassify_settle (outcome : result Prediction) (a : App) : App :=
  match outcome with
  | Ok r =>
      onScreen (setIsClassifying false) (onScreen (setPrediction (Some r)) a)
  | Throw error =>
      reject error (onScreen (setIsClassifying false) a)
  end.

(** [handleClassify] run in one go, nothing else happening while the
    pipeline is awaited. *)
Definition handleClassify (fetch : Fetch) (a : App) : App :=
  match selectedImageUri (screen a) with
  | None | Some EmptyString => a
  | Some uri =>
      let a1 := onScreen (setPrediction None) (onScreen (setIsClassifying true) a) in
      match mockModelInference fetch uri with
      | Ok r =>
          onScreen (setIsClassifying false) (onScreen (setPrediction (Some r)) a1)
      | Throw error => reject error (onScreen (setIsClassifying false) a1)
      end
  end.

(** The Classify button: [disabled={!hasImage || isClassifying}]. *)
Definition classifyDisabled (s : Screen) : bool :=
  negb (hasImage s) || isClassifying s.

Inductive event : Type :=
| PressClassify
| FetchSettles (i : nat) (outcome : result Response)
| ImagePicked (uri : string) (meta : ImageMeta)
| PickerOpened
| PhotoTaken (uri : option string) (meta : ImageMeta)
| PhotoFailed
| CameraOpened
| CameraClosed
| CameraFlipped.

Definition step (a : App) (e : event) : App :=
  match e with
  | PressClassify =>
      if classifyDisabled (screen a) then a else handleClassify_call a
  | FetchSettles i outcome =>
      match nth_error (pending a) i with
      | Some uri =>
          handleClassify_settle
            (mockModelInference (fun _ => outcome) uri) (settled i a)
      | None => a
      end
  | ImagePicked uri meta =>
      match uri with
      | EmptyString => a
      | String _ _ => onScreen (updateImageState (Some uri) (Some meta)) a
      end
  | PickerOpened => onScreen (setIsCameraVisible false) a
  | PhotoTaken uri meta =>
      onScreen (fun s =>
        setIsCameraVisible false (updateImageState uri (Some meta) s)) a
  | PhotoFailed => onScreen (setIsCameraVisible false) a
  | CameraOpened => onScreen (setIsCameraVisible true) a
  | CameraClosed => onScreen (setIsCameraVisible false) a
  | CameraFlipped =>
      onScreen (setCameraFacing (fun prev =>
        match prev with back => front | front => back end)) a
  end.

Definition run (events : list event) : App := fold_left step events initial.

Definition isSettle (e : event) : bool :=
  match e with
  | FetchSettles _ _ => true
  | _ => false
  end.

(** The flag is set exactly while one submission is in flight. *)
Definition flagCountsPending (a : App) : Prop :=
  List.length (pending a) = if isClassifying (screen a) then 1 else 0.

End Road.

(** ** Sample exchanges *)

Module Samples.
Import Js Http Pipeline.

(** A network that answers every request with [r]. *)
Definition respond (r : Response) : Fetch := fun _ => Ok r.

(** A network on which every request fails. *)
Definition offline : Fetch :=
  fun _ => Throw (ErrorObject TypeError "Network request failed").

Definition notJson : result jsonValue :=
  Throw (ErrorObject SyntaxError "JSON Parse error: Unexpected token").

(** A [503] whose body is the text [model unavailable]. *)
Definition unavailable : Response :=
  {| status := 503; text := Ok "model unavailable"; json := notJson |}.

(** A [500] with an empty body. *)
Definition emptyFailure : Response :=
  {| status := 500; text := Ok ""; json := notJson |}.

(** A [200] whose body parses to [data]; the pipelines never read the text
    of a successful response, and the sample leaves it empty. *)
Definition success (data : jsonValue) : Response :=
  {| status := 200; text := Ok ""; json := Ok data |}.

(** [{"predicted_class":"Cat","confidence_percent":42.5}] *)
Definition catBody : jsonValue :=
  JObj [("predicted_class", JStr "Cat"); ("confidence_percent", JNum 42.5)].

(** [{"label":"Dog","confidence":0.5}] *)
Definition dogBody : jsonValue :=
  JObj [("label", JStr "Dog"); ("confidence", JNum 0.5)].

(** [{"predicted_class":42}] *)
Definition numericClassBody : jsonValue :=
  JObj [("predicted_class", JNum 42)].

(** [{}] *)
Definition emptyBody : jsonValue := JObj [].

Definition sampleUri : string := "file:///cache/ImagePicker/photo.jpg".

End Samples.

(** ** The text after the last separator *)

Module JsStringSpec.

(** The text after the last occurrence of [sep] in [s]; [None] when [sep]
    does not occur. *)
Fixpoint afterLast (sep : ascii) (s : string) : option string :=
  match s with
  | EmptyString => None
  | String c rest =>
      match afterLast sep rest with
      | Some tail => Some tail
      | None => if Ascii.eqb c sep then Some rest else None
      end
  end.

End JsStringSpec.

(** ** The collaborators: permissions, camera and image library *)

Module Expo.
Import Js.

Definition Alert : Type := (string * string)%type.

Inductive PermissionStatus : Type := GRANTED | DENIED | UNDETERMINED.

Definition isGrantedStatus (s : PermissionStatus) : bool :=
  match s with
  | GRANTED => true
  | DENIED | UNDETERMINED => false
  end.

(** What a permission hook holds and what a permission request resolves
    to. *)
Record PermissionResponse : Type := mkPermissionResponse {
  status : PermissionStatus;
  granted : bool;
  accessPrivileges : option string
}.

(** [permission?.granted] as a condition: [undefined] is falsy. *)
Definition optGranted (permission : option PermissionResponse) : bool :=
  match permission with
  | Some response => granted response
  | None => false
  end.

(** [permission.accessPrivileges === 'limited'] *)
Definition isLimited (permission : PermissionResponse) : bool :=
  match accessPrivileges permission with
  | Some privileges => String.eqb privileges "limited"
  | None => false
  end.

(** [permission?.accessPrivileges === 'limited'] *)
Definition optLimited (permission : option PermissionResponse) : bool :=
  match permission with
  | Some response => isLimited response
  | None => false
  end.

(** What [takePictureAsync] resolves to. *)
Record Picture : Type := mkPicture {
  pictureUri : string;
  pictureWidth : float;
  pictureHeight : float
}.

(** One asset of the image library. *)
Record Asset : Type := mkAsset {
  assetUri : string;
  assetType : option string;
  assetWidth : float;
  assetHeight : float;
  fileSize : option float
}.

(** What [launchImageLibraryAsync] resolves to. *)
Record PickerResult : Type := mkPickerResult {
  canceled : bool;
  assets : option (list Asset)
}.

(** A number as a condition: [0], [-0] and [NaN] are falsy. *)
Definition truthyNumber (n : float) : bool :=
  negb (PrimFloat.eqb n 0) && PrimFloat.eqb n n.

(** A string as a condition: the empty string is falsy. *)
Definition truthyString (s : string) : bool :=
  match s with
  | EmptyString => false
  | String _ _ => true
  end.

(** The camera: [cameraRef.current] is [null] ([None]) or a view whose
    [takePictureAsync] settles to a picture, to [undefined], or rejects. *)
Definition Camera : Type := option (result (option Picture)).

End Expo.

(** ** The other handlers of the first screen (lines 35-97) *)

Module GarbageHandlers.
Import Js Expo Garbage.
Local Open Scope js_scope.

(** [ensureCameraPermission] (lines 35-48); [requested] is what
    [requestCameraPermission()] settles to when it is called. *)
Definition ensureCameraPermission (cameraPermission : option PermissionResponse)
  (requested : result PermissionResponse) (a : App) : result (bool * App) :=
  if optGranted cameraPermission then Ok (true, a)
  else
    response <- requested ;;
    if negb (granted response) then
      Ok (false,
          alert "Camera permission needed"
            "Please grant camera access to capture images." a)
    else Ok (true, a).

(** [handleOpenCamera] (lines 50-56); a rejected request rejects the
    handler before any update of the state. *)
Definition handleOpenCamera (cameraPermission : option PermissionResponse)
  (requested : result PermissionResponse) (a : App) : result App :=
  ensured <- ensureCameraPermission cameraPermission requested a ;;
  if negb (fst ensured) then Ok (snd ensured)
  else Ok (onScreen (setCameraVisible true) (snd ensured)).

(** [photo.uri] where [photo] may be [undefined]. *)
Definition uriOfPhoto (photo : option Picture) : result string :=
  match photo with
  | Some picture => Ok (pictureUri picture)
  | None =>
      Throw (ErrorObject TypeError "Cannot read property 'uri' of undefined")
  end.

(** [handleCapturePhoto] (lines 58-74): nothing without a camera view;
    otherwise the picture is taken inside a [try] whose [catch] shows an
    alert. *)
Definition handleCapturePhoto (camera : Camera) (a : App) : App :=
  match camera with
  | None => a
  | Some taken =>
      match (photo <- taken ;; uriOfPhoto photo) with
      | Ok photoUri =>
          onScreen (fun s =>
            setCameraVisible false
              (setResultModalVisible false
                (setPrediction None (setImageUri (Some photoUri) s)))) a
      | Throw _ =>
          alert "Capture failed" "Unable to take a picture right now." a
      end
  end.

(** [handlePickImage] (lines 76-97); [permission] is what
    [requestMediaLibraryPermissionsAsync()] settles to and [launched] what
    [launchImageLibraryAsync] settles to when it is called.  Nothing is
    caught: a rejection rejects the handler, the state being as it was. *)
Definition handlePickImage (permission : result PermissionResponse)
  (launched : result PickerResult) (a : App) : result App :=
  response <- permission ;;
  if negb (isGrantedStatus (status response)) then
    Ok (alert "Gallery permission needed"
          "Please allow access to your library to select images." a)
  else
    picked <- launched ;;
    match canceled picked, assets picked with
    | false, Some (first :: _) =>
        Ok (onScreen (fun s =>
              setResultModalVisible false
                (setPrediction None (setImageUri (Some (assetUri first)) s))) a)
    | _, _ => Ok a
    end.

(** The result modal: [visible={resultModalVisible && !!prediction}]. *)
Definition resultModalShown (s : Screen) : bool :=
  resultModalVisible s
  && match prediction s with Some _ => true | None => false end.

End GarbageHandlers.

(** ** The other handlers of the second screen (lines 482-603) *)

Module RoadHandlers.
Import Js Expo Road.
Local Open Scope js_scope.

(** What a handler leaves behind: the state, the alerts it showed (first
    one first) and, when its promise rejects, the reason. *)
Record Handled : Type := mkHandled {
  state : App;
  shown : list Alert;
  rejection : option exn
}.

(** [ensureCameraAccess] (lines 482-488): [permission?.granted ?? false]. *)
Definition ensureCameraAccess (cameraPermission : option PermissionResponse)
  (requested : result (option PermissionResponse)) : result bool :=
  if optGranted cameraPermission then Ok true
  else
    permission <- requested ;;
    Ok (optGranted permission).

(** [ensureMediaAccess] (lines 490-506): the answer and the alerts shown. *)
Definition ensureMediaAccess (mediaPermission : option PermissionResponse)
  (requested : result (option PermissionResponse))
  : result (bool * list Alert) :=
  if optGranted mediaPermission || optLimited mediaPermission then
    Ok (true, [])
  else
    permission <- requested ;;
    match permission with
    | None => Ok (false, [])
    | Some response =>
        let hasLimitedAccess := isLimited response in
        let alerts :=
          if negb (granted response) && negb hasLimitedAccess then
            [("Permission needed",
              "Gallery access is required to pick an image. You can enable access from the device settings.")]
          else [] in
        Ok (granted response || hasLimitedAccess, alerts)
    end.

(** [handleOpenCamera] (lines 514-521) *)
Definition handleOpenCamera (cameraPermission : option PermissionResponse)
  (requested : result (option PermissionResponse)) (a : App) : Handled :=
  match ensureCameraAccess cameraPermission requested with
  | Throw e => {| state := a; shown := []; rejection := Some e |}
  | Ok false =>
      {| state := a;
         shown := [("Permission needed",
                    "Camera access is required to take a photo.")];
         rejection := None |}
  | Ok true =>
      {| state := onScreen (setIsCameraVisible true) a;
         shown := []; rejection := None |}
  end.

(** [asset.fileSize ? asset.fileSize / (1024 * 1024) : undefined] *)
Definition sizeMBOf (asset : Asset) : option float :=
  match fileSize asset with
  | Some bytes =>
      if truthyNumber bytes then Some (bytes / (1024 * 1024))%float else None
  | None => None
  end.

Definition metaOfAsset (asset : Asset) : ImageMeta :=
  {| width := Some (assetWidth asset);
     height := Some (assetHeight asset);
     sizeMB := sizeMBOf asset |}.

(** [asset?.type && asset.type !== 'image'] *)
Definition notAnImage (asset : Asset) : bool :=
  match assetType asset with
  | Some kind => truthyString kind && negb (String.eqb kind "image")
  | None => false
  end.

(** [result.assets?.[0]] *)
Definition firstAsset (picked : PickerResult) : option Asset :=
  match assets picked with
  | Some (first :: _) => Some first
  | Some [] | None => None
  end.

(** [handlePickImage] (lines 523-557): the camera is hidden first; the
    access check is outside the [try], the picker inside it. *)
Definition handlePickImage (mediaPermission : option PermissionResponse)
  (requested : result (option PermissionResponse))
  (launched : result PickerResult) (a : App) : Handled :=
  let a1 := onScreen (setIsCameraVisible false) a in
  match ensureMediaAccess mediaPermission requested with
  | Throw e => {| state := a1; shown := []; rejection := Some e |}
  | Ok (false, alerts) => {| state := a1; shown := alerts; rejection := None |}
  | Ok (true, alerts) =>
      match launched with
      | Throw _ =>
          {| state := a1;
             shown := alerts ++
               [("Something went wrong",
                 "Unable to open the photo library right now. Please try again.")];
             rejection := None |}
      | Ok picked =>
          if canceled picked then
            {| state := a1; shown := alerts; rejection := None |}
          else
            match firstAsset picked with
            | Some asset =>
                if notAnImage asset then
                  {| state := a1;
                     shown := alerts ++
                       [("Only images supported",
                         "Please pick a photo to continue classification.")];
                     rejection := None |}
                else if truthyString (assetUri asset) then
                  {| state :=
                       onScreen
                         (updateImageState (Some (assetUri asset))
                            (Some (metaOfAsset asset))) a1;
                     shown := alerts; rejection := None |}
                else {| state := a1; shown := alerts; rejection := None |}
            | None => {| state := a1; shown := alerts; rejection := None |}
            end
      end
  end.

(** [{ width: photo?.width, height: photo?.height }] *)
Definition metaOfPhoto (photo : option Picture) : ImageMeta :=
  {| width := option_map pictureWidth photo;
     height := option_map pictureHeight photo;
     sizeMB := None |}.

(** [handleTakePhoto] (lines 559-577): nothing without a camera view;
    otherwise the [finally] clause hides the camera. *)
Definition handleTakePhoto (camera : Camera) (a : App) : App :=
  match camera with
  | None => a
  | Some taken =>
      let a1 :=
        match taken with
        | Ok photo =>
            onScreen
              (updateImageState (option_map pictureUri photo)
                 (Some (metaOfPhoto photo))) a
        | Throw _ => a
        end in
      onScreen (setIsCameraVisible false) a1
  end.

(** [helperMessage] (lines 595-603) *)
Definition helperMessage (s : Screen) : string :=
  if negb (hasImage s) then
    "Upload or capture a crisp photo to unlock model predictions."
  else
    match prediction s with
    | None =>
        "Ready when you are. Tap classify to send this frame through your model."
    | Some _ =>
        "Use this insight to decide if the asset meets your quality bar."
    end.

End RoadHandlers.

(** ** Invariants of the screens and sample collaborators *)

Module ScreenInvariants.
Import Js Expo.

(** The result modal is asked for only when there is a prediction. *)
Definition modalHasPrediction (a : Garbage.App) : Prop :=
  Garbage.resultModalVisible (Garbage.screen a) = true ->
  Garbage.prediction (Garbage.screen a) <> None.

(** No prediction is held while a classification is running. *)
Definition noPredictionWhileClassifying (a : Road.App) : Prop :=
  Road.isClassifying (Road.screen a) = true ->
  Road.prediction (Road.screen a) = None.

(** [a'] has the classifying flag and the submissions in flight of [a]. *)
Definition garbageSameSubmissions (a a' : Garbage.App) : Prop :=
  Garbage.isClassifying (Garbage.screen a')
  = Garbage.isClassifying (Garbage.screen a)
  /\ Garbage.pending a' = Garbage.pending a.

Definition roadSameSubmissions (a a' : Road.App) : Prop :=
  Road.isClassifying (Road.screen a') = Road.isClassifying (Road.screen a)
  /\ Road.pending a' = Road.pending a.

Definition grantedResponse : PermissionResponse :=
  {| status := GRANTED; granted := true; accessPrivileges := Some "all" |}.

Definition limitedResponse : PermissionResponse :=
  {| status := GRANTED; granted := false; accessPrivileges := Some "limited" |}.

Definition deniedResponse : PermissionResponse :=
  {| status := DENIED; granted := false; accessPrivileges := Some "none" |}.


Definition videoAsset : Asset :=
  {| assetUri := "file:///library/clip.mp4"; assetType := Some "video";
     assetWidth := 4; assetHeight := 3; fileSize := None |}.


End ScreenInvariants.

(** * Properties *)

(** ** Strings *)

Module JsStringFacts.
Import JsString.

Lemma split_not_nil (sep : ascii) (s : string) : split sep s <> [].
Proof.
  induction s as [|c rest IH]; simpl; [discriminate|].
  destruct (Ascii.eqb c sep); [discriminate|].
  destruct (split sep rest); discriminate.
Qed.

Lemma pop_cons_not_nil (x : string) (l : list string) :
  l <> [] -> pop (x :: l) = pop l.
Proof. destruct l; [congruence | reflexivity]. Qed.

Lemma contains_false_split (sep : ascii) (s : string) :
  contains sep s = false -> split sep s = [s].
Proof.
  induction s as [|c rest IH]; simpl; [reflexivity|].
  destruct (Ascii.eqb c sep); simpl; [discriminate|].
  intros H. rewrite (IH H). reflexivity.
Qed.

Lemma split_one_piece (sep : ascii) (s piece : string) :
  split sep s = [piece] -> contains sep s = false.
Proof.
  revert piece. induction s as [|c rest IH]; intros piece H; [reflexivity|].
  simpl in H |- *. destruct (Ascii.eqb c sep); simpl.
  - destruct (split sep rest) eqn:E; [|discriminate].
    exfalso. exact (split_not_nil _ _ E).
  - destruct (split sep rest) as [|q qs] eqn:E.
    + exfalso. exact (split_not_nil _ _ E).
    + injection H as _ Hqs. subst qs. exact (IH q eq_refl).
Qed.

(** [split] never returns an empty array, so [pop] after it never gives
    [undefined]: the fallback file name is never used. *)
Lemma pop_split_some (sep : ascii) (s : string) :
  exists piece, pop (split sep s) = Some piece.
Proof.
  generalize (split_not_nil sep s).
  induction (split sep s) as [|x l IH]; [congruence|]; intros _.
  destruct l as [|y l]; [exists x; reflexivity|].
  apply IH. discriminate.
Qed.

End JsStringFacts.

(** ** The MIME type *)

Module MimeFacts.
Import JsString JsStringFacts Mime.

Lemma spec_after_last_dot_none (s : string) :
  spec_after_last_dot s = None <-> contains "." s = false.
Proof.
  induction s as [|c rest IH]; simpl; [tauto|].
  destruct (spec_after_last_dot rest) as [e|].
  - split; [discriminate|].
    intros H. apply orb_false_iff in H. destruct H as [_ H].
    apply IH in H. discriminate.
  - destruct IH as [IH _]. rewrite (IH eq_refl), orb_false_r.
    destruct (Ascii.eqb c "."); split; congruence.
Qed.

(** What the code takes for the extension, in the specification's terms:
    the text after the last dot, or the whole name when it has no dot. *)
Lemma pop_split_dot (s : string) :
  pop (split "." s) = Some (nullish (spec_after_last_dot s) s).
Proof.
  induction s as [|c rest IH]; [reflexivity|].
  simpl split. simpl spec_after_last_dot.
  destruct (Ascii.eqb c ".") eqn:Hc.
  - rewrite pop_cons_not_nil by apply split_not_nil.
    rewrite IH. destruct (spec_after_last_dot rest); reflexivity.
  - destruct (split "." rest) as [|piece pieces] eqn:Hs.
    { exfalso. exact (split_not_nil _ _ Hs). }
    destruct pieces as [|p2 pieces].
    + apply split_one_piece in Hs as Hn.
      apply spec_after_last_dot_none in Hn. rewrite Hn in IH |- *.
      simpl in IH |- *. congruence.
    + change (pop (String c piece :: p2 :: pieces)) with (pop (p2 :: pieces)).
      change (pop (piece :: p2 :: pieces)) with (pop (p2 :: pieces)) in IH.
      rewrite IH.
      destruct (spec_after_last_dot rest) as [e|] eqn:He; [reflexivity|].
      apply spec_after_last_dot_none in He.
      rewrite (contains_false_split _ _ He) in Hs. discriminate.
Qed.

Lemma mimeTypeOfExtension_lookup (e : string) :
  mimeTypeOfExtension (Some e)
  = match spec_lookup spec_recognized e with
    | Some mime => mime
    | None => "image/jpeg"
    end.
Proof.
  unfold spec_recognized. cbn [spec_lookup mimeTypeOfExtension].
  rewrite !(String.eqb_sym _ e).
  destruct (String.eqb e "png"); [reflexivity|].
  destruct (String.eqb e "heic"); [reflexivity|].
  destruct (String.eqb e "webp"); reflexivity.
Qed.

(** On a file name that has a dot, the code derives the MIME type of the
    specification. *)
Lemma mimeType_dotted (fileName : string) :
  contains "." fileName = true -> mimeType fileName = spec_mimeType fileName.
Proof.
  intros Hdot. unfold mimeType, spec_mimeType, extensionOf, spec_extension.
  rewrite pop_split_dot.
  destruct (spec_after_last_dot fileName) as [e|] eqn:He.
  - apply mimeTypeOfExtension_lookup.
  - apply spec_after_last_dot_none in He. congruence.
Qed.

(** On a file name without a dot, the code takes the whole name for the
    extension, where the specification sees no extension. *)
Lemma mimeType_no_dot (fileName : string) :
  contains "." fileName = false ->
  mimeType fileName = mimeTypeOfExtension (Some (toLowerCase fileName))
  /\ spec_mimeType fileName = "image/jpeg".
Proof.
  intros Hdot. unfold mimeType, spec_mimeType, extensionOf, spec_extension.
  rewrite pop_split_dot.
  apply spec_after_last_dot_none in Hdot. rewrite Hdot. split; reflexivity.
Qed.

Example mimeType_upper_png :
  mimeType (fileNameOf "upload.jpg" "file:///cache/IMG_0001.PNG") = "image/png".
Proof. reflexivity. Qed.

Example mimeType_heic : mimeType "shot.heic" = "image/heic".
Proof. reflexivity. Qed.

Example mimeType_webp : mimeType "a.b.webp" = "image/webp".
Proof. reflexivity. Qed.

Example mimeType_other : mimeType "clip.gif" = "image/jpeg".
Proof. reflexivity. Qed.

Example mimeType_trailing_dot : mimeType "photo." = "image/jpeg".
Proof. reflexivity. Qed.

(** C4 (the code departs from the claim): a file name with no dot has no
    extension, and the claim gives it [image/jpeg]; the code takes the whole
    name for the extension, so the image [file:///tmp/png] is sent as
    [image/png], in both variants. *)
Theorem mimeType_of_name_without_dot :
  fileNameOf "upload.jpg" "file:///tmp/png" = "png"
  /\ fileNameOf "image.jpg" "file:///tmp/png" = "png"
  /\ spec_extension "png" = None
  /\ spec_mimeType "png" = "image/jpeg"
  /\ mimeType "png" = "image/png".
Proof. repeat split; reflexivity. Qed.

End MimeFacts.

(** ** The pipelines *)

Module PipelineFacts.
Import JsString Mime Js Http Pipeline.
Local Open Scope js_scope.

Lemma ok_iff (r : Response) :
  ok r = true <-> (200 <= status r <= 299)%Z.
Proof.
  unfold ok. rewrite andb_true_iff, !Z.leb_le. tauto.
Qed.

Lemma ok_false_iff (r : Response) :
  ok r = false <-> ~ (200 <= status r <= 299)%Z.
Proof.
  rewrite <- ok_iff. destruct (ok r); split; congruence.
Qed.

(** *** Unfolding the pipelines along the outcome of [fetch] *)

Lemma api_fetch_rejects (fetch : Fetch) (uri : string) (e : exn) :
  fetch (apiRequest uri) = Throw e ->
  classifyImageViaApi fetch uri = Throw e.
Proof. intros Hf. unfold classifyImageViaApi. rewrite Hf. reflexivity. Qed.

Lemma mock_fetch_rejects (fetch : Fetch) (uri : string) (e : exn) :
  fetch (mockRequest uri) = Throw e ->
  mockModelInference fetch uri = Throw e.
Proof. intros Hf. unfold mockModelInference. rewrite Hf. reflexivity. Qed.

Lemma api_not_ok (fetch : Fetch) (uri : string) (r : Response) :
  fetch (apiRequest uri) = Ok r -> ok r = false ->
  classifyImageViaApi fetch uri =
  (message <- text r ;;
   Throw (ErrorObject PlainError (or_else message "Unable to classify image."))).
Proof.
  intros Hf Hok. unfold classifyImageViaApi. rewrite Hf. simpl.
  rewrite Hok. reflexivity.
Qed.

Lemma mock_not_ok (fetch : Fetch) (uri : string) (r : Response) :
  fetch (mockRequest uri) = Ok r -> ok r = false ->
  mockModelInference fetch uri =
  (msg <- text r ;;
   Throw (ErrorObject PlainError (or_else msg "Failed to classify image."))).
Proof.
  intros Hf Hok. unfold mockModelInference. rewrite Hf. simpl.
  rewrite Hok. simpl. destruct (text r); reflexivity.
Qed.

Lemma api_ok (fetch : Fetch) (uri : string) (r : Response) (data : jsonValue) :
  fetch (apiRequest uri) = Ok r -> ok r = true -> json r = Ok data ->
  classifyImageViaApi fetch uri =
  (percent <- percentOf data ;;
   l <- apiLabelOf data ;;
   Ok {| label := l; confidence := (percent / 100)%float |}).
Proof.
  intros Hf Hok Hj. unfold classifyImageViaApi. rewrite Hf. simpl.
  rewrite Hok. simpl. rewrite Hj. reflexivity.
Qed.

Lemma mock_ok (fetch : Fetch) (uri : string) (r : Response) (data : jsonValue) :
  fetch (mockRequest uri) = Ok r -> ok r = true -> json r = Ok data ->
  mockModelInference fetch uri =
  (percent <- percentOf data ;;
   l <- mockLabelOf data ;;
   Ok {| label := l; confidence := percent |}).
Proof.
  intros Hf Hok Hj. unfold mockModelInference. rewrite Hf. simpl.
  rewrite Hok. simpl. rewrite Hj. simpl.
  destruct (percentOf data); simpl; [|reflexivity].
  destruct (mockLabelOf data); reflexivity.
Qed.

Lemma api_json_rejects (fetch : Fetch) (uri : string) (r : Response) (e : exn) :
  fetch (apiRequest uri) = Ok r -> ok r = true -> json r = Throw e ->
  classifyImageViaApi fetch uri = Throw e.
Proof.
  intros Hf Hok Hj. unfold classifyImageViaApi. rewrite Hf. simpl.
  rewrite Hok. simpl. rewrite Hj. reflexivity.
Qed.

Lemma mock_json_rejects (fetch : Fetch) (uri : string) (r : Response) (e : exn) :
  fetch (mockRequest uri) = Ok r -> ok r = true -> json r = Throw e ->
  mockModelInference fetch uri = Throw e.
Proof.
  intros Hf Hok Hj. unfold mockModelInference. rewrite Hf. simpl.
  rewrite Hok. simpl. rewrite Hj. reflexivity.
Qed.

(** *** The extraction of the fields *)

Lemma getProp_not_null (data : jsonValue) (k : string) :
  data <> JNull -> getProp data k = Ok (fieldOf data k).
Proof. destruct data; intros H; try reflexivity. congruence. Qed.

Lemma getProp_null (k : string) : exists e, getProp JNull k = Throw e.
Proof. eexists. reflexivity. Qed.

Lemma percentOf_not_null (data : jsonValue) :
  data <> JNull -> percentOf data = Ok (spec_percent data).
Proof.
  intros H. unfold percentOf, spec_percent.
  rewrite !getProp_not_null by assumption. simpl.
  destruct (fieldOf data "confidence_percent") as [[]|];
    destruct (fieldOf data "confidence") as [[]|]; reflexivity.
Qed.

Lemma apiLabelOf_not_null (data : jsonValue) :
  data <> JNull -> apiLabelOf data = Ok (spec_label "label" data).
Proof.
  intros H. unfold apiLabelOf, spec_label.
  rewrite getProp_not_null by assumption. simpl.
  destruct (fieldOf data "label") as [[]|]; reflexivity.
Qed.

(** The label of the second variant: [predicted_class] unless it is absent
    or [null], then [label] unless it is absent or [null], then
    ["Unknown"]; no test on the type of the value. *)
Lemma mockLabelOf_not_null (data : jsonValue) :
  data <> JNull ->
  mockLabelOf data =
  Ok (coalesce (fieldOf data "predicted_class")
        (coalesce (fieldOf data "label") (JStr "Unknown"))).
Proof.
  intros H. unfold mockLabelOf.
  rewrite !getProp_not_null by assumption. simpl.
  destruct (fieldOf data "predicted_class") as [[]|]; reflexivity.
Qed.

Lemma fieldOf_numeric_not_null (data : jsonValue) (k : string) :
  isNumeric (fieldOf data k) = true -> data <> JNull.
Proof. intros H E. subst data. discriminate. Qed.

Lemma or_else_spec (body fallback : string) :
  or_else body fallback = spec_errorMessage fallback body.
Proof. destruct body; reflexivity. Qed.

(** The three clauses of the extraction, one by one. *)
Lemma spec_percent_cases (data : jsonValue) :
  (forall n, fieldOf data "confidence_percent" = Some (JNum n) ->
     spec_percent data = n)
  /\ (forall n, isNumeric (fieldOf data "confidence_percent") = false ->
       fieldOf data "confidence" = Some (JNum n) ->
       spec_percent data = (n * 100)%float)
  /\ (isNumeric (fieldOf data "confidence_percent") = false ->
      isNumeric (fieldOf data "confidence") = false ->
      spec_percent data = 0%float).
Proof.
  unfold spec_percent. repeat split.
  - intros n ->. reflexivity.
  - intros n Hp ->.
    destruct (fieldOf data "confidence_percent") as [[]|];
      try reflexivity; discriminate.
  - intros Hp Hc.
    destruct (fieldOf data "confidence_percent") as [[]|];
      destruct (fieldOf data "confidence") as [[]|];
      try reflexivity; discriminate.
Qed.

End PipelineFacts.

Module PipelineProperties.
Import JsString Mime Js Http Pipeline Samples PipelineFacts.
Local Open Scope js_scope.

(** C1: in both variants a [Prediction] is returned only when [fetch]
    resolved to a response whose status is in 200-299 and whose body parsed
    as JSON; on a response with any other status, and when [fetch] rejects
    (a network failure), the pipeline throws, so that no [Prediction] is
    returned. *)
Theorem prediction_only_from_2xx (fetch : Fetch) (uri : string) :
  (forall p, classifyImageViaApi fetch uri = Ok p ->
     exists r data, fetch (apiRequest uri) = Ok r
       /\ (200 <= status r <= 299)%Z /\ json r = Ok data)
  /\ (forall p, mockModelInference fetch uri = Ok p ->
     exists r data, fetch (mockRequest uri) = Ok r
       /\ (200 <= status r <= 299)%Z /\ json r = Ok data)
  /\ (forall r, fetch (apiRequest uri) = Ok r ->
     ~ (200 <= status r <= 299)%Z ->
     exists e, classifyImageViaApi fetch uri = Throw e)
  /\ (forall r, fetch (mockRequest uri) = Ok r ->
     ~ (200 <= status r <= 299)%Z ->
     exists e, mockModelInference fetch uri = Throw e)
  /\ (forall e, fetch (apiRequest uri) = Throw e ->
     classifyImageViaApi fetch uri = Throw e)
  /\ (forall e, fetch (mockRequest uri) = Throw e ->
     mockModelInference fetch uri = Throw e).
Proof.
  repeat apply conj.
  - intros p Hp.
    destruct (fetch (apiRequest uri)) as [r|e] eqn:Hf.
    2:{ rewrite (api_fetch_rejects _ _ Hf) in Hp. discriminate. }
    destruct (ok r) eqn:Hok.
    + destruct (json r) as [data|e] eqn:Hj.
      * exists r, data. repeat split; try apply ok_iff; assumption.
      * rewrite (api_json_rejects _ _ Hf Hok Hj) in Hp. discriminate.
    + rewrite (api_not_ok _ _ Hf Hok) in Hp.
      destruct (text r); discriminate.
  - intros p Hp.
    destruct (fetch (mockRequest uri)) as [r|e] eqn:Hf.
    2:{ rewrite (mock_fetch_rejects _ _ Hf) in Hp. discriminate. }
    destruct (ok r) eqn:Hok.
    + destruct (json r) as [data|e] eqn:Hj.
      * exists r, data. repeat split; try apply ok_iff; assumption.
      * rewrite (mock_json_rejects _ _ Hf Hok Hj) in Hp. discriminate.
    + rewrite (mock_not_ok _ _ Hf Hok) in Hp.
      destruct (text r); discriminate.
  - intros r Hf Hst. apply ok_false_iff in Hst.
    rewrite (api_not_ok _ _ Hf Hst). destruct (text r); eexists; reflexivity.
  - intros r Hf Hst. apply ok_false_iff in Hst.
    rewrite (mock_not_ok _ _ Hf Hst). destruct (text r); eexists; reflexivity.
  - intros e. apply api_fetch_rejects.
  - intros e. apply mock_fetch_rejects.
Qed.

Lemma prediction_only_from_2xx_witness :
  (exists e, classifyImageViaApi (respond unavailable) sampleUri = Throw e)
  /\ (exists e, mockModelInference (respond unavailable) sampleUri = Throw e)
  /\ classifyImageViaApi offline sampleUri
     = Throw (ErrorObject TypeError "Network request failed")
  /\ mockModelInference offline sampleUri
     = Throw (ErrorObject TypeError "Network request failed").
Proof.
  destruct (prediction_only_from_2xx (respond unavailable) sampleUri)
    as (_ & _ & Ha & Hm & _ & _).
  destruct (prediction_only_from_2xx offline sampleUri)
    as (_ & _ & _ & _ & Hna & Hnm).
  repeat apply conj.
  - apply (Ha unavailable); [reflexivity | simpl; lia].
  - apply (Hm unavailable); [reflexivity | simpl; lia].
  - apply Hna. reflexivity.
  - apply Hnm. reflexivity.
Defined.

(** C3 (as amended): on a response whose status is outside 200-299 and
    whose body text is [body], both variants throw an [Error] whose message
    is [body] when it is not empty; when it is empty the message is the
    variant's own fallback, "Unable to classify image." in
    [classifyImageViaApi] and "Failed to classify image." in
    [mockModelInference]. *)
Theorem failure_message (fetch : Fetch) (uri : string) (r : Response)
  (body : string) :
  ~ (200 <= status r <= 299)%Z ->
  text r = Ok body ->
  (fetch (apiRequest uri) = Ok r ->
   classifyImageViaApi fetch uri =
   Throw (ErrorObject PlainError
            (spec_errorMessage "Unable to classify image." body)))
  /\ (fetch (mockRequest uri) = Ok r ->
      mockModelInference fetch uri =
      Throw (ErrorObject PlainError
               (spec_errorMessage "Failed to classify image." body))).
Proof.
  intros Hst Ht. apply ok_false_iff in Hst. split; intros Hf.
  - rewrite (api_not_ok _ _ Hf Hst), Ht. simpl. now rewrite or_else_spec.
  - rewrite (mock_not_ok _ _ Hf Hst), Ht. simpl. now rewrite or_else_spec.
Qed.

Lemma failure_message_witness :
  classifyImageViaApi (respond unavailable) sampleUri
  = Throw (ErrorObject PlainError "model unavailable")
  /\ mockModelInference (respond unavailable) sampleUri
     = Throw (ErrorObject PlainError "model unavailable").
Proof.
  assert (Hst : ~ (200 <= status unavailable <= 299)%Z) by (simpl; lia).
  destruct (@failure_message (respond unavailable) sampleUri unavailable
              "model unavailable" Hst eq_refl) as [Ha Hm].
  split; [exact (Ha eq_refl) | exact (Hm eq_refl)].
Defined.

(** C3 (the claim as stated fails): on a [500] with an empty body,
    [mockModelInference] throws with the message "Failed to classify
    image.", not "Unable to classify image.". *)
Lemma failure_message_mock_fallback :
  ok emptyFailure = false
  /\ text emptyFailure = Ok ""
  /\ mockModelInference (respond emptyFailure) sampleUri
     = Throw (ErrorObject PlainError "Failed to classify image.")
  /\ mockModelInference (respond emptyFailure) sampleUri
     <> Throw (ErrorObject PlainError "Unable to classify image.").
Proof. repeat split. discriminate. Qed.

(** Apart from the body [null], the extraction is the specified one: for
    every response with a status in 200-299 whose body parses to a JSON
    value other than [null], the extracted percentage is the
    [confidence_percent] field when it is a number, otherwise the
    [confidence] field times 100 when that one is a number, otherwise 0;
    [mockModelInference] returns it as the confidence and
    [classifyImageViaApi] returns it divided by 100. *)
Theorem confidence_extraction (fetch : Fetch) (uri : string) (r : Response)
  (data : jsonValue) :
  (200 <= status r <= 299)%Z ->
  json r = Ok data ->
  data <> JNull ->
  (fetch (apiRequest uri) = Ok r ->
   exists l, classifyImageViaApi fetch uri =
             Ok {| label := l; confidence := (spec_percent data / 100)%float |})
  /\ (fetch (mockRequest uri) = Ok r ->
      exists l, mockModelInference fetch uri =
                Ok {| label := l; confidence := spec_percent data |}).
Proof.
  intros Hst Hj Hnn. apply ok_iff in Hst. split; intros Hf.
  - rewrite (api_ok _ _ Hf Hst Hj), percentOf_not_null,
      apiLabelOf_not_null by assumption.
    eexists. reflexivity.
  - rewrite (mock_ok _ _ Hf Hst Hj), percentOf_not_null,
      mockLabelOf_not_null by assumption.
    eexists. reflexivity.
Qed.

Lemma confidence_extraction_witness :
  (exists l, classifyImageViaApi (respond (success dogBody)) sampleUri =
             Ok {| label := l; confidence := 0.5%float |})
  /\ (exists l, mockModelInference (respond (success dogBody)) sampleUri =
                Ok {| label := l; confidence := 50%float |}).
Proof.
  assert (Hst : (200 <= status (success dogBody) <= 299)%Z) by (simpl; lia).
  assert (Hnn : dogBody <> JNull) by discriminate.
  destruct (@confidence_extraction (respond (success dogBody)) sampleUri
              (success dogBody) dogBody Hst eq_refl Hnn) as [Ha Hm].
  split; [exact (Ha eq_refl) | exact (Hm eq_refl)].
Defined.

(** C2 (the code departs from the claim): a [200] whose body is the JSON
    value [null] has no numeric [confidence_percent] and no numeric
    [confidence], so the claim gives the percentage 0; the code reads
    [data.confidence_percent] off [data] before the [typeof] test can supply
    the default, and the read throws a [TypeError], in both variants.  The
    guard that gives every other shape its default misses [null]. *)
Lemma confidence_extraction_null_body :
  ok (success JNull) = true
  /\ isNumeric (fieldOf JNull "confidence_percent") = false
  /\ isNumeric (fieldOf JNull "confidence") = false
  /\ percentOf JNull
     = Throw (ErrorObject TypeError
                "Cannot read property 'confidence_percent' of null")
  /\ classifyImageViaApi (respond (success JNull)) sampleUri
     = Throw (ErrorObject TypeError
                "Cannot read property 'confidence_percent' of null")
  /\ mockModelInference (respond (success JNull)) sampleUri
     = Throw (ErrorObject TypeError
                "Cannot read property 'confidence_percent' of null").
Proof. repeat split. Qed.

(** The label of the first variant, on every body other than [null]: the
    [label] field when it is a string, ["Unknown"] otherwise. *)
Lemma api_label (fetch : Fetch) (uri : string) (r : Response)
  (data : jsonValue) :
  (200 <= status r <= 299)%Z -> json r = Ok data -> data <> JNull ->
  fetch (apiRequest uri) = Ok r ->
  exists c, classifyImageViaApi fetch uri =
            Ok {| label := spec_label "label" data; confidence := c |}.
Proof.
  intros Hst Hj Hnn Hf. apply ok_iff in Hst.
  rewrite (api_ok _ _ Hf Hst Hj), percentOf_not_null,
    apiLabelOf_not_null by assumption.
  eexists. reflexivity.
Qed.

(** The label of the second variant, on every body other than [null]. *)
Lemma mock_label (fetch : Fetch) (uri : string) (r : Response)
  (data : jsonValue) :
  (200 <= status r <= 299)%Z -> json r = Ok data -> data <> JNull ->
  fetch (mockRequest uri) = Ok r ->
  exists c, mockModelInference fetch uri =
            Ok {| label := coalesce (fieldOf data "predicted_class")
                             (coalesce (fieldOf data "label") (JStr "Unknown"));
                  confidence := c |}.
Proof.
  intros Hst Hj Hnn Hf. apply ok_iff in Hst.
  rewrite (mock_ok _ _ Hf Hst Hj), percentOf_not_null,
    mockLabelOf_not_null by assumption.
  eexists. reflexivity.
Qed.

(** C5 (the code departs from the claim): on the body
    [{"predicted_class":42}] the field the second variant reads is not a
    string, and the claim gives the label ["Unknown"]; [mockModelInference]
    returns the number 42 as the label. *)
Theorem mock_label_not_a_string :
  isString (fieldOf numericClassBody "predicted_class") = false
  /\ spec_label "predicted_class" numericClassBody = JStr "Unknown"
  /\ mockModelInference (respond (success numericClassBody)) sampleUri
     = Ok {| label := JNum 42; confidence := 0 |}.
Proof. repeat split. Qed.

(** C6 (as amended): for a successful response whose body is
    [{"predicted_class":"Cat","confidence_percent":42.5}],
    [mockModelInference] returns the label ["Cat"] with the confidence 42.5,
    and [classifyImageViaApi], the variant that divides the percentage by
    100, returns the confidence 0.425 with the label ["Unknown"], since it
    reads the [label] field only. *)
Theorem cat_response (fetch : Fetch) (uri : string) (r : Response) :
  (200 <= status r <= 299)%Z ->
  json r = Ok catBody ->
  (fetch (mockRequest uri) = Ok r ->
   mockModelInference fetch uri =
   Ok {| label := JStr "Cat"; confidence := 42.5 |})
  /\ (fetch (apiRequest uri) = Ok r ->
      classifyImageViaApi fetch uri =
      Ok {| label := JStr "Unknown"; confidence := 0.425 |}).
Proof.
  intros Hst Hj. apply ok_iff in Hst. split; intros Hf.
  - rewrite (mock_ok _ _ Hf Hst Hj). reflexivity.
  - rewrite (api_ok _ _ Hf Hst Hj). reflexivity.
Qed.

Lemma cat_response_witness :
  mockModelInference (respond (success catBody)) sampleUri
  = Ok {| label := JStr "Cat"; confidence := 42.5 |}
  /\ classifyImageViaApi (respond (success catBody)) sampleUri
     = Ok {| label := JStr "Unknown"; confidence := 0.425 |}.
Proof.
  assert (Hst : (200 <= status (success catBody) <= 299)%Z) by (simpl; lia).
  destruct (@cat_response (respond (success catBody)) sampleUri
              (success catBody) Hst eq_refl) as [Hm Ha].
  split; [exact (Hm eq_refl) | exact (Ha eq_refl)].
Defined.

(** C6 (the claim as stated fails): on that body no variant returns the
    label ["Cat"] together with the confidence 0.425; the variant that
    divides by 100 returns the label ["Unknown"]. *)
Lemma cat_response_no_cat_at_0425 :
  classifyImageViaApi (respond (success catBody)) sampleUri
  <> Ok {| label := JStr "Cat"; confidence := 0.425 |}
  /\ mockModelInference (respond (success catBody)) sampleUri
     <> Ok {| label := JStr "Cat"; confidence := 0.425 |}.
Proof.
  split; intros H.
  - apply (f_equal (fun o => match o with
                             | Ok p => label p
                             | Throw _ => JNull
                             end)) in H.
    discriminate H.
  - apply (f_equal (fun o => match o with
                             | Ok p => PrimFloat.eqb (confidence p) 0.425
                             | Throw _ => true
                             end)) in H.
    vm_compute in H. discriminate H.
Qed.

(** Apart from the body [null], a body without the fields gives the
    defaults: for a successful response whose body is a JSON value other
    than [null] with none of the fields [label], [predicted_class],
    [confidence] and [confidence_percent], both variants return the
    prediction with the label ["Unknown"] and the confidence 0. *)
Theorem defaults_when_fields_missing (fetch : Fetch) (uri : string)
  (r : Response) (data : jsonValue) :
  (200 <= status r <= 299)%Z ->
  json r = Ok data ->
  data <> JNull ->
  fieldOf data "label" = None ->
  fieldOf data "predicted_class" = None ->
  fieldOf data "confidence" = None ->
  fieldOf data "confidence_percent" = None ->
  (fetch (apiRequest uri) = Ok r ->
   classifyImageViaApi fetch uri =
   Ok {| label := JStr "Unknown"; confidence := 0 |})
  /\ (fetch (mockRequest uri) = Ok r ->
      mockModelInference fetch uri =
      Ok {| label := JStr "Unknown"; confidence := 0 |}).
Proof.
  intros Hst Hj Hnn Hl Hp Hc Hcp. apply ok_iff in Hst. split; intros Hf.
  - rewrite (api_ok _ _ Hf Hst Hj), percentOf_not_null,
      apiLabelOf_not_null by assumption.
    unfold spec_percent, spec_label. rewrite Hl, Hc, Hcp. reflexivity.
  - rewrite (mock_ok _ _ Hf Hst Hj), percentOf_not_null,
      mockLabelOf_not_null by assumption.
    unfold spec_percent. rewrite Hl, Hp, Hc, Hcp. reflexivity.
Qed.

Lemma defaults_when_fields_missing_witness :
  classifyImageViaApi (respond (success emptyBody)) sampleUri
  = Ok {| label := JStr "Unknown"; confidence := 0 |}
  /\ mockModelInference (respond (success emptyBody)) sampleUri
     = Ok {| label := JStr "Unknown"; confidence := 0 |}.
Proof.
  assert (Hst : (200 <= status (success emptyBody) <= 299)%Z) by (simpl; lia).
  assert (Hnn : emptyBody <> JNull) by discriminate.
  destruct (@defaults_when_fields_missing (respond (success emptyBody))
              sampleUri (success emptyBody) emptyBody Hst eq_refl Hnn
              eq_refl eq_refl eq_refl eq_refl) as [Ha Hm].
  split; [exact (Ha eq_refl) | exact (Hm eq_refl)].
Defined.

(** C7 (the code departs from the claim): the JSON value [null] has none
    of the four fields, so the claim gives the default prediction; on a
    [200] with that body both variants fail with a [TypeError] instead,
    thrown by the unguarded read of [data.confidence_percent]. *)
Lemma defaults_null_body_fails :
  fieldOf JNull "label" = None
  /\ fieldOf JNull "predicted_class" = None
  /\ fieldOf JNull "confidence" = None
  /\ fieldOf JNull "confidence_percent" = None
  /\ (exists e, classifyImageViaApi (respond (success JNull)) sampleUri
               = Throw e)
  /\ (exists e, mockModelInference (respond (success JNull)) sampleUri
               = Throw e).
Proof. repeat split; eexists; reflexivity. Qed.

(** C8: for a successful response whose body has a numeric
    [confidence_percent] or a numeric [confidence], both variants return a
    prediction, and the confidence of [classifyImageViaApi] is the
    confidence of [mockModelInference] divided by 100, the latter being the
    extracted percentage itself. *)
Theorem confidence_conventions (fetch : Fetch) (uri : string) (r : Response)
  (data : jsonValue) :
  (200 <= status r <= 299)%Z ->
  json r = Ok data ->
  isNumeric (fieldOf data "confidence_percent")
    || isNumeric (fieldOf data "confidence") = true ->
  fetch (apiRequest uri) = Ok r ->
  fetch (mockRequest uri) = Ok r ->
  exists p q,
    classifyImageViaApi fetch uri = Ok p
    /\ mockModelInference fetch uri = Ok q
    /\ confidence q = spec_percent data
    /\ confidence p = (confidence q / 100)%float.
Proof.
  intros Hst Hj Hnum Hfa Hfm. apply ok_iff in Hst.
  assert (Hnn : data <> JNull).
  { apply orb_true_iff in Hnum.
    destruct Hnum as [H|H]; exact (@fieldOf_numeric_not_null _ _ H). }
  rewrite (api_ok _ _ Hfa Hst Hj), (mock_ok _ _ Hfm Hst Hj),
    percentOf_not_null, apiLabelOf_not_null, mockLabelOf_not_null
    by assumption.
  do 2 eexists. repeat split.
Qed.

Lemma confidence_conventions_witness :
  exists p q,
    classifyImageViaApi (respond (success catBody)) sampleUri = Ok p
    /\ mockModelInference (respond (success catBody)) sampleUri = Ok q
    /\ confidence q = 42.5%float
    /\ confidence p = (confidence q / 100)%float.
Proof.
  assert (Hst : (200 <= status (success catBody) <= 299)%Z) by (simpl; lia).
  exact (@confidence_conventions (respond (success catBody)) sampleUri
           (success catBody) catBody Hst eq_refl eq_refl eq_refl eq_refl).
Defined.

End PipelineProperties.

(** ** The screens *)

Module GarbageFacts.
Import Js Http Pipeline Garbage.

Lemma removeAt_last_pending (l : list string) (i : nat) (uri : string) :
  List.length l <= 1 -> nth_error l i = Some uri -> l = [uri] /\ removeAt i l = [].
Proof.
  destruct l as [|x [|y l]]; simpl; intros Hlen Hnth.
  - destruct i; discriminate.
  - destruct i as [|i]; simpl in Hnth.
    + injection Hnth as ->. split; reflexivity.
    + destruct i; discriminate.
  - lia.
Qed.

Lemma flagCountsPending_le (a : App) :
  flagCountsPending a -> List.length (pending a) <= 1.
Proof.
  unfold flagCountsPending. destruct (isClassifying (screen a)); lia.
Qed.

Lemma settle_clears_flag (outcome : result Prediction) (a : App) :
  isClassifying (screen (handleClassify_settle outcome a)) = false.
Proof. destruct outcome; reflexivity. Qed.

Lemma settle_keeps_pending (outcome : result Prediction) (a : App) :
  pending (handleClassify_settle outcome a) = pending a.
Proof. destruct outcome; reflexivity. Qed.

Lemma press_while_classifying (a : App) :
  isClassifying (screen a) = true -> step a PressClassify = a.
Proof.
  intros H. simpl. unfold classifyDisabled. rewrite H, orb_true_r. reflexivity.
Qed.

Lemma flag_survives (a : App) (e : event) :
  isClassifying (screen a) = true -> isSettle e = false ->
  isClassifying (screen (step a e)) = true.
Proof.
  intros H He.
  destruct e as [| i o | captured | picked | | |];
    try discriminate He; simpl; try assumption.
  unfold classifyDisabled. rewrite H, orb_true_r. assumption.
Qed.

Lemma step_flagCountsPending (a : App) (e : event) :
  flagCountsPending a -> flagCountsPending (step a e).
Proof.
  intros Hinv.
  destruct e as [| i o | captured | picked | | |]; simpl; try exact Hinv.
  - unfold classifyDisabled, hasImage.
    destruct (isClassifying (screen a)) eqn:Hflag;
      [rewrite orb_true_r; assumption|].
    rewrite orb_false_r. unfold handleClassify_call.
    destruct (imageUri (screen a)) as [[|c u]|]; simpl; try assumption.
    unfold flagCountsPending in *. simpl. rewrite Hflag in Hinv.
    rewrite length_app, Hinv. reflexivity.
  - destruct (nth_error (pending a) i) as [uri|] eqn:Hnth; [|assumption].
    unfold flagCountsPending.
    rewrite settle_clears_flag, settle_keeps_pending. simpl.
    destruct (removeAt_last_pending _ _ (flagCountsPending_le Hinv) Hnth)
      as [_ ->].
    reflexivity.
Qed.

Lemma handleClassify_flag (fetch : Fetch) (a : App) :
  isClassifying (screen (handleClassify fetch a))
  = negb (hasImage (screen a)) && isClassifying (screen a).
Proof.
  unfold handleClassify, hasImage.
  destruct (imageUri (screen a)) as [[|c u]|]; reflexivity.
Qed.

Lemma same_outcome_api (fetch : Fetch) (uri : string) :
  classifyImageViaApi (fun _ => fetch (apiRequest uri)) uri
  = classifyImageViaApi fetch uri.
Proof. reflexivity. Qed.

(** A press on the enabled button followed at once by the settling of its
    request is [handleClassify] run in one go. *)
Lemma press_then_settle (fetch : Fetch) (a : App) (uri : string) :
  pending a = [] -> classifyDisabled (screen a) = false ->
  imageUri (screen a) = Some uri ->
  step (step a PressClassify) (FetchSettles 0 (fetch (apiRequest uri)))
  = handleClassify fetch a.
Proof.
  intros Hp Hd Hu. simpl step at 2. rewrite Hd.
  unfold classifyDisabled, hasImage in Hd. rewrite Hu in Hd.
  unfold handleClassify_call, handleClassify. rewrite Hu.
  destruct uri as [|c u]; [discriminate Hd|].
  simpl. rewrite Hp. simpl. rewrite same_outcome_api.
  destruct (classifyImageViaApi fetch (String c u));
    unfold handleClassify_settle, settled, onScreen, alert; simpl;
    rewrite Hp; reflexivity.
Qed.

Lemma fold_flagCountsPending (events : list event) (a : App) :
  flagCountsPending a -> flagCountsPending (fold_left step events a).
Proof.
  revert a. induction events as [|e events IH]; intros a Hinv; simpl.
  - assumption.
  - apply IH, step_flagCountsPending, Hinv.
Qed.

Lemma run_flagCountsPending (events : list event) :
  flagCountsPending (run events).
Proof. apply fold_flagCountsPending. reflexivity. Qed.

End GarbageFacts.

Module RoadFacts.
Import Js Http Pipeline Road.

Lemma road_flagCountsPending_le (a : App) :
  flagCountsPending a -> List.length (pending a) <= 1.
Proof.
  unfold flagCountsPending. destruct (isClassifying (screen a)); lia.
Qed.

Lemma road_settle_clears_flag (outcome : result Prediction) (a : App) :
  isClassifying (screen (handleClassify_settle outcome a)) = false.
Proof. destruct outcome; reflexivity. Qed.

Lemma road_settle_keeps_pending (outcome : result Prediction) (a : App) :
  pending (handleClassify_settle outcome a) = pending a.
Proof. destruct outcome; reflexivity. Qed.

Lemma road_press_while_classifying (a : App) :
  isClassifying (screen a) = true -> step a PressClassify = a.
Proof.
  intros H. simpl. unfold classifyDisabled. rewrite H, orb_true_r. reflexivity.
Qed.

Lemma road_flag_survives (a : App) (e : event) :
  isClassifying (screen a) = true -> isSettle e = false ->
  isClassifying (screen (step a e)) = true.
Proof.
  intros H He.
  destruct e as [| i o | picked m | | taken m | | | |];
    try discriminate He; simpl; try assumption.
  - unfold classifyDisabled. rewrite H, orb_true_r. assumption.
  - destruct picked; simpl; assumption.
Qed.

Lemma road_step_flagCountsPending (a : App) (e : event) :
  flagCountsPending a -> flagCountsPending (step a e).
Proof.
  intros Hinv.
  destruct e as [| i o | picked m | | taken m | | | |];
    simpl; try exact Hinv.
  - unfold classifyDisabled, hasImage.
    destruct (isClassifying (screen a)) eqn:Hflag;
      [rewrite orb_true_r; assumption|].
    rewrite orb_false_r. unfold handleClassify_call.
    destruct (selectedImageUri (screen a)) as [[|c u]|]; simpl; try assumption.
    unfold flagCountsPending in *. simpl. rewrite Hflag in Hinv.
    rewrite length_app, Hinv. reflexivity.
  - destruct (nth_error (pending a) i) as [uri|] eqn:Hnth; [|assumption].
    unfold flagCountsPending.
    rewrite road_settle_clears_flag, road_settle_keeps_pending. simpl.
    destruct (GarbageFacts.removeAt_last_pending _ _
                (road_flagCountsPending_le Hinv) Hnth) as [_ ->].
    reflexivity.
  - destruct picked; exact Hinv.
Qed.

Lemma road_handleClassify_flag (fetch : Fetch) (a : App) :
  isClassifying (screen (handleClassify fetch a))
  = negb (hasImage (screen a)) && isClassifying (screen a).
Proof.
  unfold handleClassify, hasImage.
  destruct (selectedImageUri (screen a)) as [[|c u]|]; simpl; try reflexivity.
  destruct (mockModelInference fetch (String c u)); reflexivity.
Qed.

Lemma same_outcome_mock (fetch : Fetch) (uri : string) :
  mockModelInference (fun _ => fetch (mockRequest uri)) uri
  = mockModelInference fetch uri.
Proof. reflexivity. Qed.

Lemma road_press_then_settle (fetch : Fetch) (a : App) (uri : string) :
  pending a = [] -> classifyDisabled (screen a) = false ->
  selectedImageUri (screen a) = Some uri ->
  step (step a PressClassify) (FetchSettles 0 (fetch (mockRequest uri)))
  = handleClassify fetch a.
Proof.
  intros Hp Hd Hu. simpl step at 2. rewrite Hd.
  unfold classifyDisabled, hasImage in Hd. rewrite Hu in Hd.
  unfold handleClassify_call, handleClassify. rewrite Hu.
  destruct uri as [|c u]; [discriminate Hd|].
  simpl. rewrite Hp. simpl. rewrite same_outcome_mock.
  destruct (mockModelInference fetch (String c u));
    unfold handleClassify_settle, settled, onScreen, reject; simpl;
    rewrite Hp; reflexivity.
Qed.

Lemma road_fold_flagCountsPending (events : list event) (a : App) :
  flagCountsPending a -> flagCountsPending (fold_left step events a).
Proof.
  revert a. induction events as [|e events IH]; intros a Hinv; simpl.
  - assumption.
  - apply IH, road_step_flagCountsPending, Hinv.
Qed.

Lemma road_run_flagCountsPending (events : list event) :
  flagCountsPending (run events).
Proof. apply road_fold_flagCountsPending. reflexivity. Qed.

End RoadFacts.

Module ScreenProperties.
Import Js Http Pipeline Samples.

Lemma flag_iff_pending (flag : bool) (l : list string) :
  List.length l = (if flag then 1 else 0) -> (flag = true <-> l <> []).
Proof.
  destruct flag, l; simpl; intros H; split; intros H';
    try discriminate; try congruence.
Qed.

Example garbage_press_twice :
  Garbage.pending
    (Garbage.run [Garbage.ImagePicked sampleUri; Garbage.PressClassify;
                  Garbage.PressClassify]) = [sampleUri].
Proof. reflexivity. Qed.

Example garbage_press_settle_press :
  let a := Garbage.run
             [Garbage.ImagePicked sampleUri; Garbage.PressClassify;
              Garbage.FetchSettles 0 (Ok unavailable); Garbage.PressClassify;
              Garbage.FetchSettles 0 (Ok (success dogBody))] in
  Garbage.pending a = []
  /\ Garbage.isClassifying (Garbage.screen a) = false
  /\ Garbage.prediction (Garbage.screen a)
     = Some {| label := JStr "Dog"; confidence := 0.5 |}
  /\ Garbage.alerts a = [("Classification failed", "model unavailable")].
Proof. repeat split. Qed.

Example road_press_without_image :
  Road.run [Road.PressClassify] = Road.initial.
Proof. reflexivity. Qed.

Example road_failure_is_unhandled :
  let a := Road.run
             [Road.PhotoTaken (Some sampleUri)
                {| Road.width := None; Road.height := None;
                   Road.sizeMB := None |};
              Road.PressClassify; Road.PressClassify;
              Road.FetchSettles 0 (Ok emptyFailure)] in
  Road.pending a = []
  /\ Road.isClassifying (Road.screen a) = false
  /\ Road.prediction (Road.screen a) = None
  /\ Road.unhandled a
     = [ErrorObject PlainError "Failed to classify image."].
Proof. repeat split. Qed.

(** C9: in every state either screen can reach, at most one submission is
    in flight, and the classifying flag is set exactly when one is; while
    the flag is set, pressing Classify changes nothing (the button is
    disabled), and every event other than the settling of the request
    leaves the flag set. *)
Theorem one_submission_in_flight :
  (forall events : list Garbage.event,
     List.length (Garbage.pending (Garbage.run events)) <= 1
     /\ (Garbage.isClassifying (Garbage.screen (Garbage.run events)) = true
         <-> Garbage.pending (Garbage.run events) <> [])
     /\ (Garbage.isClassifying (Garbage.screen (Garbage.run events)) = true ->
         Garbage.step (Garbage.run events) Garbage.PressClassify
         = Garbage.run events)
     /\ (forall e,
           Garbage.isClassifying (Garbage.screen (Garbage.run events)) = true ->
           Garbage.isSettle e = false ->
           Garbage.isClassifying
             (Garbage.screen (Garbage.step (Garbage.run events) e)) = true))
  /\ (forall events : list Road.event,
     List.length (Road.pending (Road.run events)) <= 1
     /\ (Road.isClassifying (Road.screen (Road.run events)) = true
         <-> Road.pending (Road.run events) <> [])
     /\ (Road.isClassifying (Road.screen (Road.run events)) = true ->
         Road.step (Road.run events) Road.PressClassify = Road.run events)
     /\ (forall e,
           Road.isClassifying (Road.screen (Road.run events)) = true ->
           Road.isSettle e = false ->
           Road.isClassifying
             (Road.screen (Road.step (Road.run events) e)) = true)).
Proof.
  split; intros events.
  - pose proof (GarbageFacts.run_flagCountsPending events) as Hinv.
    split; [|split; [|split]].
    + apply GarbageFacts.flagCountsPending_le, Hinv.
    + apply flag_iff_pending, Hinv.
    + apply GarbageFacts.press_while_classifying.
    + intros e. apply GarbageFacts.flag_survives.
  - pose proof (RoadFacts.road_run_flagCountsPending events) as Hinv.
    split; [|split; [|split]].
    + apply RoadFacts.road_flagCountsPending_le, Hinv.
    + apply flag_iff_pending, Hinv.
    + apply RoadFacts.road_press_while_classifying.
    + intros e. apply RoadFacts.road_flag_survives.
Qed.

Lemma one_submission_in_flight_witness :
  Garbage.step
    (Garbage.run [Garbage.ImagePicked sampleUri; Garbage.PressClassify])
    Garbage.PressClassify
  = Garbage.run [Garbage.ImagePicked sampleUri; Garbage.PressClassify]
  /\ Garbage.isClassifying
       (Garbage.screen
          (Garbage.step
             (Garbage.run [Garbage.ImagePicked sampleUri; Garbage.PressClassify])
             (Garbage.ImagePicked "file:///other.png"))) = true.
Proof.
  destruct one_submission_in_flight as [Hg _].
  destruct (Hg [Garbage.ImagePicked sampleUri; Garbage.PressClassify])
    as (_ & _ & Hpress & Hstay).
  split.
  - apply Hpress. reflexivity.
  - apply Hstay; reflexivity.
Defined.

(** C10: [handleClassify] run in one go leaves [isClassifying] false
    whenever it called the pipeline, whether the pipeline returned a
    prediction or threw (without an image it returns at once and leaves the
    flag as it was); the part of [handleClassify] that runs once the
    pipeline has settled leaves the flag false from any state and for any
    outcome; and when the request of a submission in flight settles, the
    flag is false and nothing is in flight any more.  In both screens. *)
Theorem classifying_flag_cleared :
  (forall (fetch : Fetch) (a : Garbage.App),
     Garbage.isClassifying (Garbage.screen (Garbage.handleClassify fetch a))
     = negb (Garbage.hasImage (Garbage.screen a))
       && Garbage.isClassifying (Garbage.screen a))
  /\ (forall (fetch : Fetch) (a : Road.App),
     Road.isClassifying (Road.screen (Road.handleClassify fetch a))
     = negb (Road.hasImage (Road.screen a))
       && Road.isClassifying (Road.screen a))
  /\ (forall (outcome : result Prediction) (a : Garbage.App),
     Garbage.isClassifying
       (Garbage.screen (Garbage.handleClassify_settle outcome a)) = false)
  /\ (forall (outcome : result Prediction) (a : Road.App),
     Road.isClassifying
       (Road.screen (Road.handleClassify_settle outcome a)) = false)
  /\ (forall events i outcome submitted,
     nth_error (Garbage.pending (Garbage.run events)) i = Some submitted ->
     Garbage.isClassifying
       (Garbage.screen
          (Garbage.step (Garbage.run events) (Garbage.FetchSettles i outcome)))
     = false
     /\ Garbage.pending
          (Garbage.step (Garbage.run events) (Garbage.FetchSettles i outcome))
        = [])
  /\ (forall events i outcome submitted,
     nth_error (Road.pending (Road.run events)) i = Some submitted ->
     Road.isClassifying
       (Road.screen
          (Road.step (Road.run events) (Road.FetchSettles i outcome)))
     = false
     /\ Road.pending
          (Road.step (Road.run events) (Road.FetchSettles i outcome))
        = []).
Proof.
  repeat apply conj.
  - apply GarbageFacts.handleClassify_flag.
  - apply RoadFacts.road_handleClassify_flag.
  - apply GarbageFacts.settle_clears_flag.
  - apply RoadFacts.road_settle_clears_flag.
  - intros events i outcome submitted Hnth. simpl. rewrite Hnth.
    rewrite GarbageFacts.settle_clears_flag,
      GarbageFacts.settle_keeps_pending.
    split; [reflexivity|]. simpl.
    apply (GarbageFacts.removeAt_last_pending _ _
             (GarbageFacts.flagCountsPending_le
                (GarbageFacts.run_flagCountsPending events)) Hnth).
  - intros events i outcome submitted Hnth. simpl. rewrite Hnth.
    rewrite RoadFacts.road_settle_clears_flag,
      RoadFacts.road_settle_keeps_pending.
    split; [reflexivity|]. simpl.
    apply (GarbageFacts.removeAt_last_pending _ _
             (RoadFacts.road_flagCountsPending_le
                (RoadFacts.road_run_flagCountsPending events)) Hnth).
Qed.

Lemma classifying_flag_cleared_witness :
  Garbage.isClassifying
    (Garbage.screen
       (Garbage.step
          (Garbage.run [Garbage.ImagePicked sampleUri; Garbage.PressClassify])
          (Garbage.FetchSettles 0 (Throw (Thrown JNull))))) = false
  /\ Road.isClassifying
       (Road.screen
          (Road.step
             (Road.run [Road.PhotoTaken (Some sampleUri)
                          {| Road.width := None; Road.height := None;
                             Road.sizeMB := None |};
                        Road.PressClassify])
             (Road.FetchSettles 0 (Ok (success catBody))))) = false.
Proof.
  destruct classifying_flag_cleared as (_ & _ & _ & _ & Hg & Hr).
  split.
  - apply (Hg _ 0 _ sampleUri). reflexivity.
  - apply (Hr _ 0 _ sampleUri). reflexivity.
Defined.

End ScreenProperties.

(** ** More on file names, MIME types and requests *)

Module RequestFacts.
Import JsString JsStringSpec JsStringFacts Mime Js Http Pipeline.

Lemma afterLast_none (sep : ascii) (s : string) :
  afterLast sep s = None <-> contains sep s = false.
Proof.
  induction s as [|c rest IH]; simpl; [tauto|].
  destruct (afterLast sep rest) as [tail|].
  - split; [discriminate|].
    intros H. apply orb_false_iff in H. destruct H as [_ H].
    apply IH in H. discriminate.
  - destruct IH as [IH _]. rewrite (IH eq_refl), orb_false_r.
    destruct (Ascii.eqb c sep); split; congruence.
Qed.

Lemma afterLast_has_no_sep (sep : ascii) (s tail : string) :
  afterLast sep s = Some tail -> contains sep tail = false.
Proof.
  revert tail. induction s as [|c rest IH]; intros tail; simpl; [discriminate|].
  destruct (afterLast sep rest) as [t|] eqn:E.
  - intros H. injection H as <-. apply IH. reflexivity.
  - destruct (Ascii.eqb c sep); [|discriminate].
    intros H. injection H as <-. apply afterLast_none. assumption.
Qed.

Lemma afterLast_app (sep : ascii) (front tail : string) :
  contains sep tail = false ->
  afterLast sep (front ++ String sep tail) = Some tail.
Proof.
  intros H. apply afterLast_none in H.
  induction front as [|c front IH]; simpl.
  - rewrite H, Ascii.eqb_refl. reflexivity.
  - rewrite IH. reflexivity.
Qed.

Lemma pop_split_afterLast (sep : ascii) (s : string) :
  pop (split sep s) = Some (nullish (afterLast sep s) s).
Proof.
  induction s as [|c rest IH]; [reflexivity|].
  simpl split. simpl afterLast.
  destruct (Ascii.eqb c sep) eqn:Hc.
  - rewrite pop_cons_not_nil by apply split_not_nil.
    rewrite IH. destruct (afterLast sep rest); reflexivity.
  - destruct (split sep rest) as [|piece pieces] eqn:Hs.
    { exfalso. exact (split_not_nil _ _ Hs). }
    destruct pieces as [|p2 pieces].
    + apply split_one_piece in Hs as Hn.
      apply afterLast_none in Hn. rewrite Hn in IH |- *.
      simpl in IH |- *. congruence.
    + change (pop (String c piece :: p2 :: pieces)) with (pop (p2 :: pieces)).
      change (pop (piece :: p2 :: pieces)) with (pop (p2 :: pieces)) in IH.
      rewrite IH.
      destruct (afterLast sep rest) as [e|] eqn:He; [reflexivity|].
      apply afterLast_none in He.
      rewrite (contains_false_split _ _ He) in Hs. discriminate.
Qed.

Lemma fileNameOf_afterLast (fallback uri : string) :
  fileNameOf fallback uri = nullish (afterLast "/" uri) uri.
Proof. unfold fileNameOf. rewrite pop_split_afterLast. reflexivity. Qed.

Lemma lower_char_sep (c : ascii) :
  Ascii.eqb (lower_char c) "." = Ascii.eqb c ".".
Proof. destruct c as [[] [] [] [] [] [] [] []]; reflexivity. Qed.

Lemma lower_char_idem (c : ascii) : lower_char (lower_char c) = lower_char c.
Proof. destruct c as [[] [] [] [] [] [] [] []]; reflexivity. Qed.

Lemma toLowerCase_idem (s : string) :
  toLowerCase (toLowerCase s) = toLowerCase s.
Proof.
  induction s as [|c rest IH]; simpl; [reflexivity|].
  rewrite lower_char_idem, IH. reflexivity.
Qed.

Lemma split_toLowerCase (s : string) :
  split "." (toLowerCase s) = map toLowerCase (split "." s).
Proof.
  induction s as [|c rest IH]; simpl; [reflexivity|].
  rewrite lower_char_sep, IH.
  destruct (Ascii.eqb c "."); [reflexivity|].
  destruct (split "." rest); reflexivity.
Qed.

Lemma pop_map (f : string -> string) (l : list string) :
  pop (map f l) = option_map f (pop l).
Proof.
  induction l as [|x l IH]; [reflexivity|].
  destruct l as [|y l]; [reflexivity|]. exact IH.
Qed.

(** X1: the file name put in the request is the text after the last slash
    of the URI, and the URI itself when it has no slash; it never holds a
    slash, and the fallback name is never used. *)
Theorem fileName_is_last_segment (fallback uri : string) :
  (contains "/" uri = false -> fileNameOf fallback uri = uri)
  /\ (forall front name,
        uri = front ++ String "/" name -> contains "/" name = false ->
        fileNameOf fallback uri = name)
  /\ contains "/" (fileNameOf fallback uri) = false
  /\ (forall other, fileNameOf other uri = fileNameOf fallback uri).
Proof.
  rewrite fileNameOf_afterLast. repeat apply conj.
  - intros H. apply afterLast_none in H. rewrite H. reflexivity.
  - intros front name -> H. rewrite (@afterLast_app _ front _ H). reflexivity.
  - destruct (afterLast "/" uri) as [tail|] eqn:E; simpl.
    + exact (@afterLast_has_no_sep _ _ _ E).
    + apply afterLast_none. assumption.
  - intros other. apply fileNameOf_afterLast.
Qed.

(** X2: for the same image the two variants send the same file part (URI,
    name and MIME type) with the same method to the same address; the
    requests differ in the name of the form field only, [image] against
    [file]. *)
Theorem requests_differ_in_field_only (uri : string) :
  file (apiRequest uri) = file (mockRequest uri)
  /\ Http.uri (file (apiRequest uri)) = uri
  /\ url (apiRequest uri) = url (mockRequest uri)
  /\ method (apiRequest uri) = "POST"
  /\ method (mockRequest uri) = "POST"
  /\ field (apiRequest uri) = "image"
  /\ field (mockRequest uri) = "file".
Proof.
  repeat apply conj; try reflexivity.
  unfold apiRequest, mockRequest. simpl.
  rewrite (fileNameOf_afterLast "upload.jpg"), (fileNameOf_afterLast "image.jpg").
  reflexivity.
Qed.

(** X3: when the file name ends in a dot followed by a dot-free extension,
    the MIME type is decided by that extension alone, lowered: the part
    before the last dot plays no role. *)
Theorem mimeType_by_last_extension (stem ext : string) :
  contains "." ext = false ->
  mimeType (stem ++ String "." ext) = mimeTypeOfExtension (Some (toLowerCase ext)).
Proof.
  intros H. unfold mimeType, extensionOf.
  rewrite pop_split_afterLast, (@afterLast_app _ stem _ H). reflexivity.
Qed.

Lemma mimeType_by_last_extension_witness :
  mimeType ("IMG.2024.backup" ++ String "." "HeIc") = "image/heic".
Proof.
  exact (@mimeType_by_last_extension "IMG.2024.backup" "HeIc" eq_refl).
Defined.

(** X4: the MIME type does not depend on the case of the letters of the
    file name. *)
Theorem mimeType_ignores_case (fileName : string) :
  mimeType (toLowerCase fileName) = mimeType fileName.
Proof.
  unfold mimeType, extensionOf.
  rewrite split_toLowerCase, pop_map.
  destruct (pop (split "." fileName)) as [e|]; simpl; [|reflexivity].
  rewrite toLowerCase_idem. reflexivity.
Qed.

End RequestFacts.

(** ** More on the pipelines *)

Module PipelineMore.
Import JsString Mime Js Http Pipeline Samples PipelineFacts.
Local Open Scope js_scope.

Lemma apiLabelOf_string (data l : jsonValue) :
  apiLabelOf data = Ok l -> exists s, l = JStr s.
Proof.
  unfold apiLabelOf. destruct (getProp data "label") as [[v|]|e]; simpl.
  - destruct v; intros H; injection H as <-; eexists; reflexivity.
  - intros H; injection H as <-; eexists; reflexivity.
  - discriminate.
Qed.

Lemma mockLabelOf_not_JNull (data l : jsonValue) :
  mockLabelOf data = Ok l -> l <> JNull.
Proof.
  unfold mockLabelOf.
  destruct (getProp data "predicted_class") as [[v|]|e]; simpl;
    [destruct v|..]; try discriminate;
    try (intros H; injection H as <-; discriminate).
  all: destruct (getProp data "label") as [[w|]|e]; simpl;
    [destruct w|..]; try discriminate;
    intros H; injection H as <-; discriminate.
Qed.

Lemma api_returns_inv (fetch : Fetch) (uri : string) (p : Prediction) :
  classifyImageViaApi fetch uri = Ok p ->
  exists data percent l,
    percentOf data = Ok percent /\ apiLabelOf data = Ok l
    /\ p = {| label := l; confidence := (percent / 100)%float |}.
Proof.
  unfold classifyImageViaApi.
  destruct (fetch (apiRequest uri)) as [r|e]; simpl; [|discriminate].
  destruct (ok r); simpl.
  - destruct (json r) as [data|e]; simpl; [|discriminate].
    destruct (percentOf data) as [percent|e] eqn:Hp; simpl; [|discriminate].
    destruct (apiLabelOf data) as [l|e] eqn:Hl; simpl; [|discriminate].
    intros H. injection H as <-. exists data, percent, l. auto.
  - destruct (text r); discriminate.
Qed.

Lemma mock_returns_inv (fetch : Fetch) (uri : string) (p : Prediction) :
  mockModelInference fetch uri = Ok p ->
  exists data percent l,
    percentOf data = Ok percent /\ mockLabelOf data = Ok l
    /\ p = {| label := l; confidence := percent |}.
Proof.
  unfold mockModelInference.
  destruct (fetch (mockRequest uri)) as [r|e]; simpl; [|discriminate].
  destruct (ok r); simpl.
  - destruct (json r) as [data|e]; simpl; [|discriminate].
    destruct (percentOf data) as [percent|e] eqn:Hp; simpl; [|discriminate].
    destruct (mockLabelOf data) as [l|e] eqn:Hl; simpl; [|discriminate].
    intros H. injection H as <-. exists data, percent, l. auto.
  - destruct (text r); discriminate.
Qed.

(** X5: whatever the server answers, a prediction returned by
    [classifyImageViaApi] has a string for its label, and a prediction
    returned by [mockModelInference] never has [null] for its label. *)
Theorem labels_returned (fetch : Fetch) (uri : string) (p : Prediction) :
  (classifyImageViaApi fetch uri = Ok p -> exists s, label p = JStr s)
  /\ (mockModelInference fetch uri = Ok p -> label p <> JNull).
Proof.
  split; intros H.
  - destruct (api_returns_inv _ _ H) as (data & percent & l & _ & Hl & ->).
    exact (apiLabelOf_string _ Hl).
  - destruct (mock_returns_inv _ _ H) as (data & percent & l & _ & Hl & ->).
    exact (mockLabelOf_not_JNull _ Hl).
Qed.

(** X6: the label [mockModelInference] returns on a successful response
    is [predicted_class] whenever that field is present and not [null],
    whatever its type and whatever [label] holds; [label] is used only when
    [predicted_class] is absent or [null], and then whenever it is present
    and not [null]; the label is ["Unknown"] only when both are absent or
    [null]. *)
Theorem mock_label_precedence (fetch : Fetch) (uri : string) (r : Response)
  (data : jsonValue) :
  (200 <= status r <= 299)%Z ->
  json r = Ok data ->
  fetch (mockRequest uri) = Ok r ->
  (forall v,
     fieldOf data "predicted_class" = Some v -> v <> JNull ->
     exists c, mockModelInference fetch uri =
               Ok {| label := v; confidence := c |})
  /\ (forall w,
        fieldOf data "predicted_class" = None
        \/ fieldOf data "predicted_class" = Some JNull ->
        fieldOf data "label" = Some w -> w <> JNull ->
        exists c, mockModelInference fetch uri =
                  Ok {| label := w; confidence := c |})
  /\ (data <> JNull ->
      fieldOf data "predicted_class" = None
      \/ fieldOf data "predicted_class" = Some JNull ->
      fieldOf data "label" = None \/ fieldOf data "label" = Some JNull ->
      exists c, mockModelInference fetch uri =
                Ok {| label := JStr "Unknown"; confidence := c |}).
Proof.
  intros Hst Hj Hf. apply ok_iff in Hst.
  assert (Hrun : data <> JNull ->
    mockModelInference fetch uri =
    Ok {| label := coalesce (fieldOf data "predicted_class")
                     (coalesce (fieldOf data "label") (JStr "Unknown"));
          confidence := spec_percent data |}).
  { intros Hnn.
    rewrite (mock_ok _ _ Hf Hst Hj), percentOf_not_null,
      mockLabelOf_not_null by assumption.
    reflexivity. }
  split; [|split].
  - intros v Hp Hv.
    rewrite Hrun by (intros ->; discriminate). rewrite Hp.
    exists (spec_percent data). destruct v; try reflexivity. congruence.
  - intros w Hp Hl Hw.
    rewrite Hrun by (intros ->; discriminate). rewrite Hl.
    exists (spec_percent data).
    destruct Hp as [-> | ->]; destruct w; try reflexivity; congruence.
  - intros Hnn Hp Hl. rewrite Hrun by assumption.
    exists (spec_percent data).
    destruct Hp as [-> | ->]; destruct Hl as [-> | ->]; reflexivity.
Qed.

Lemma mock_label_precedence_witness :
  exists c,
    mockModelInference
      (respond (success (JObj [("predicted_class", JNum 42);
                               ("label", JStr "Dog")])))
      sampleUri
    = Ok {| label := JNum 42; confidence := c |}.
Proof.
  assert (Hst : (200 <= status (success (JObj [("predicted_class", JNum 42);
                   ("label", JStr "Dog")])) <= 299)%Z)
    by (simpl; lia).
  assert (Hv : JNum 42 <> JNull) by discriminate.
  exact (proj1 (@mock_label_precedence _ sampleUri _ _ Hst eq_refl eq_refl)
           (JNum 42) eq_refl Hv).
Defined.

(** X7: a rejection of [response.json()] on a 2xx response, and a
    rejection of [response.text()] on any other response, is what the
    pipeline rejects with, in both variants: the [catch] clause of
    [mockModelInference] hands the error on unchanged. *)
Theorem body_rejections_propagate (fetch : Fetch) (uri : string)
  (r : Response) (e : exn) :
  (fetch (apiRequest uri) = Ok r -> (200 <= status r <= 299)%Z ->
   json r = Throw e -> classifyImageViaApi fetch uri = Throw e)
  /\ (fetch (mockRequest uri) = Ok r -> (200 <= status r <= 299)%Z ->
      json r = Throw e -> mockModelInference fetch uri = Throw e)
  /\ (fetch (apiRequest uri) = Ok r -> ~ (200 <= status r <= 299)%Z ->
      text r = Throw e -> classifyImageViaApi fetch uri = Throw e)
  /\ (fetch (mockRequest uri) = Ok r -> ~ (200 <= status r <= 299)%Z ->
      text r = Throw e -> mockModelInference fetch uri = Throw e).
Proof.
  repeat apply conj.
  - intros Hf Hst Hj. apply ok_iff in Hst. exact (api_json_rejects _ _ Hf Hst Hj).
  - intros Hf Hst Hj. apply ok_iff in Hst. exact (mock_json_rejects _ _ Hf Hst Hj).
  - intros Hf Hst Ht. apply ok_false_iff in Hst.
    rewrite (api_not_ok _ _ Hf Hst), Ht. reflexivity.
  - intros Hf Hst Ht. apply ok_false_iff in Hst.
    rewrite (mock_not_ok _ _ Hf Hst), Ht. reflexivity.
Qed.

End PipelineMore.

(** ** More on the screens *)

Module ScreenMore.
Import Js Http Pipeline Samples PipelineFacts ScreenInvariants.

(** X8: on the first screen a failed classification is reported and
    changes nothing else: when the server answers outside 200-299 the alert
    "Classification failed" carries the body text (or the fallback when it
    is empty), when [fetch] rejects with an [Error] it carries its message,
    and when something else is thrown it says "Something went wrong."; the
    image, the earlier prediction and the result modal stay as they were
    and the classifying flag is cleared. *)
Theorem garbage_failure_is_alerted (fetch : Fetch) (a : Garbage.App)
  (uri : string) :
  Garbage.imageUri (Garbage.screen a) = Some uri ->
  uri <> "" ->
  (forall r body,
     fetch (apiRequest uri) = Ok r -> ~ (200 <= status r <= 299)%Z ->
     text r = Ok body ->
     Garbage.handleClassify fetch a =
     {| Garbage.screen := Garbage.setIsClassifying false (Garbage.screen a);
        Garbage.pending := Garbage.pending a;
        Garbage.alerts :=
          ("Classification failed",
           spec_errorMessage "Unable to classify image." body)
          :: Garbage.alerts a |})
  /\ (forall kind message,
        fetch (apiRequest uri) = Throw (ErrorObject kind message) ->
        Garbage.handleClassify fetch a =
        {| Garbage.screen := Garbage.setIsClassifying false (Garbage.screen a);
           Garbage.pending := Garbage.pending a;
           Garbage.alerts :=
             ("Classification failed", message) :: Garbage.alerts a |})
  /\ (forall v,
        fetch (apiRequest uri) = Throw (Thrown v) ->
        Garbage.handleClassify fetch a =
        {| Garbage.screen := Garbage.setIsClassifying false (Garbage.screen a);
           Garbage.pending := Garbage.pending a;
           Garbage.alerts :=
             ("Classification failed", "Something went wrong.")
             :: Garbage.alerts a |}).
Proof.
  intros Hu Hne. unfold Garbage.handleClassify. rewrite Hu.
  destruct uri as [|c u]; [congruence|].
  repeat apply conj.
  - intros r body Hf Hst Ht. apply ok_false_iff in Hst.
    rewrite (api_not_ok _ _ Hf Hst), Ht. simpl. rewrite or_else_spec.
    reflexivity.
  - intros kind message Hf. rewrite (api_fetch_rejects _ _ Hf). reflexivity.
  - intros v Hf. rewrite (api_fetch_rejects _ _ Hf). reflexivity.
Qed.

Lemma garbage_failure_is_alerted_witness :
  Garbage.alerts
    (Garbage.handleClassify (respond unavailable)
       (Garbage.run [Garbage.ImagePicked sampleUri]))
  = [("Classification failed", "model unavailable")].
Proof.
  assert (Hne : sampleUri <> "") by discriminate.
  assert (Hst : ~ (200 <= status unavailable <= 299)%Z) by (simpl; lia).
  destruct (@garbage_failure_is_alerted (respond unavailable)
              (Garbage.run [Garbage.ImagePicked sampleUri]) sampleUri
              eq_refl Hne) as [Hserver _].
  rewrite (Hserver unavailable "model unavailable" eq_refl Hst eq_refl).
  reflexivity.
Defined.

(** X9: on the second screen [handleClassify] first discards the earlier
    prediction; when the pipeline returns, its prediction is the one kept,
    and when it throws, no prediction is left, the error is handled by
    nobody and the screen shows nothing about it.  The classifying flag is
    cleared either way. *)
Theorem road_outcome_of_handleClassify (fetch : Fetch) (a : Road.App)
  (uri : string) :
  Road.selectedImageUri (Road.screen a) = Some uri ->
  uri <> "" ->
  (forall p,
     mockModelInference fetch uri = Ok p ->
     Road.handleClassify fetch a =
     {| Road.screen :=
          Road.setIsClassifying false
            (Road.setPrediction (Some p) (Road.screen a));
        Road.pending := Road.pending a;
        Road.unhandled := Road.unhandled a |})
  /\ (forall e,
        mockModelInference fetch uri = Throw e ->
        Road.handleClassify fetch a =
        {| Road.screen :=
             Road.setIsClassifying false
               (Road.setPrediction None (Road.screen a));
           Road.pending := Road.pending a;
           Road.unhandled := e :: Road.unhandled a |}).
Proof.
  intros Hu Hne. unfold Road.handleClassify. rewrite Hu.
  destruct uri as [|c u]; [congruence|].
  split.
  - intros p ->. reflexivity.
  - intros e ->. reflexivity.
Qed.

Lemma road_outcome_of_handleClassify_witness :
  Road.prediction
    (Road.screen
       (Road.handleClassify (respond emptyFailure)
          (Road.run
             [Road.ImagePicked sampleUri
                {| Road.width := None; Road.height := None;
                   Road.sizeMB := None |};
              Road.PressClassify;
              Road.FetchSettles 0 (Ok (success dogBody))])))
  = None.
Proof.
  assert (Hne : sampleUri <> "") by discriminate.
  destruct (@road_outcome_of_handleClassify (respond emptyFailure)
              (Road.run
                 [Road.ImagePicked sampleUri
                    {| Road.width := None; Road.height := None;
                       Road.sizeMB := None |};
                  Road.PressClassify;
                  Road.FetchSettles 0 (Ok (success dogBody))])
              sampleUri eq_refl Hne) as [_ Hthrow].
  rewrite (Hthrow _ eq_refl). reflexivity.
Defined.

Lemma step_modalHasPrediction (a : Garbage.App) (e : Garbage.event) :
  modalHasPrediction a -> modalHasPrediction (Garbage.step a e).
Proof.
  unfold modalHasPrediction. intros Hinv.
  destruct e as [| i o | captured | picked | | |]; simpl;
    try assumption; try discriminate.
  - destruct (Garbage.classifyDisabled (Garbage.screen a)); [assumption|].
    unfold Garbage.handleClassify_call.
    destruct (Garbage.imageUri (Garbage.screen a)) as [[|c u]|];
      simpl; assumption.
  - destruct (nth_error (Garbage.pending a) i) as [uri|]; [|assumption].
    destruct (classifyImageViaApi (fun _ => o) uri); simpl;
      [discriminate | assumption].
Qed.

Lemma fold_modalHasPrediction (events : list Garbage.event) (a : Garbage.App) :
  modalHasPrediction a ->
  modalHasPrediction (fold_left Garbage.step events a).
Proof.
  revert a. induction events as [|e events IH]; intros a Hinv; simpl.
  - assumption.
  - apply IH, step_modalHasPrediction, Hinv.
Qed.

(** X10: in every state the first screen can reach, the result modal is
    asked to be visible only when there is a prediction to show, so that
    the modal is rendered exactly when [resultModalVisible] is set. *)
Theorem result_modal_has_prediction (events : list Garbage.event) :
  GarbageHandlers.resultModalShown (Garbage.screen (Garbage.run events))
  = Garbage.resultModalVisible (Garbage.screen (Garbage.run events)).
Proof.
  assert (Hinv : modalHasPrediction (Garbage.run events)).
  { apply fold_modalHasPrediction. intros H. discriminate H. }
  unfold modalHasPrediction in Hinv. unfold GarbageHandlers.resultModalShown.
  destruct (Garbage.resultModalVisible (Garbage.screen (Garbage.run events)));
    [|reflexivity].
  destruct (Garbage.prediction (Garbage.screen (Garbage.run events)));
    [reflexivity|].
  exfalso. exact (Hinv eq_refl eq_refl).
Qed.

Lemma step_noPredictionWhileClassifying (a : Road.App) (e : Road.event) :
  noPredictionWhileClassifying a ->
  noPredictionWhileClassifying (Road.step a e).
Proof.
  unfold noPredictionWhileClassifying. intros Hinv.
  destruct e as [| i o | picked m | | taken m | | | |]; simpl;
    try assumption; try reflexivity.
  - destruct (Road.classifyDisabled (Road.screen a)); [assumption|].
    unfold Road.handleClassify_call.
    destruct (Road.selectedImageUri (Road.screen a)) as [[|c u]|];
      simpl; try assumption; reflexivity.
  - destruct (nth_error (Road.pending a) i) as [uri|]; [|assumption].
    destruct (mockModelInference (fun _ => o) uri); simpl; discriminate.
  - destruct picked; simpl; [assumption | reflexivity].
Qed.

Lemma fold_noPredictionWhileClassifying (events : list Road.event)
  (a : Road.App) :
  noPredictionWhileClassifying a ->
  noPredictionWhileClassifying (fold_left Road.step events a).
Proof.
  revert a. induction events as [|e events IH]; intros a Hinv; simpl.
  - assumption.
  - apply IH, step_noPredictionWhileClassifying, Hinv.
Qed.

(** X11: in every state the second screen can reach, no prediction is held
    while a classification is running: the result card is never shown next
    to the spinner. *)
Theorem no_prediction_while_classifying (events : list Road.event) :
  Road.isClassifying (Road.screen (Road.run events)) = true ->
  Road.prediction (Road.screen (Road.run events)) = None.
Proof.
  apply fold_noPredictionWhileClassifying. intros H. discriminate H.
Qed.

Lemma no_prediction_while_classifying_witness :
  Road.prediction
    (Road.screen
       (Road.run
          [Road.ImagePicked sampleUri
             {| Road.width := None; Road.height := None;
                Road.sizeMB := None |};
           Road.PressClassify;
           Road.FetchSettles 0 (Ok (success dogBody));
           Road.PressClassify]))
  = None.
Proof.
  exact (@no_prediction_while_classifying
           [Road.ImagePicked sampleUri
              {| Road.width := None; Road.height := None;
                 Road.sizeMB := None |};
            Road.PressClassify;
            Road.FetchSettles 0 (Ok (success dogBody));
            Road.PressClassify] eq_refl).
Defined.

End ScreenMore.

Module ClassifyFlow.
Import Js Http Pipeline Samples.

(** X12: nothing cancels a submission.  When the image is replaced while a
    request is in flight, the prediction of the earlier image is still
    stored when the request settles, and is shown with the new image (on
    the second screen even when the camera left no image at all). *)
Theorem result_of_superseded_image (first : string) (outcome : result Response) :
  first <> "" ->
  (forall second p,
     classifyImageViaApi (fun _ => outcome) first = Ok p ->
     Garbage.screen
       (Garbage.run [Garbage.ImagePicked first; Garbage.PressClassify;
                     Garbage.ImagePicked second;
                     Garbage.FetchSettles 0 outcome])
     = {| Garbage.imageUri := Some second;
          Garbage.prediction := Some p;
          Garbage.isClassifying := false;
          Garbage.cameraVisible := false;
          Garbage.resultModalVisible := true |})
  /\ (forall m second m' p,
        mockModelInference (fun _ => outcome) first = Ok p ->
        Road.screen
          (Road.run [Road.ImagePicked first m; Road.PressClassify;
                     Road.PhotoTaken second m';
                     Road.FetchSettles 0 outcome])
        = {| Road.selectedImageUri := second;
             Road.prediction := Some p;
             Road.isClassifying := false;
             Road.isCameraVisible := false;
             Road.cameraFacing := Road.back;
             Road.imageMeta := Some m' |}).
Proof.
  intros Hne. destruct first as [|c u]; [congruence|]. split.
  - intros second p Hp. unfold Garbage.run. cbn [fold_left].
    cbn -[classifyImageViaApi]. rewrite Hp. reflexivity.
  - intros m second m' p Hp. unfold Road.run. cbn [fold_left].
    cbn -[mockModelInference]. rewrite Hp. reflexivity.
Qed.

Lemma result_of_superseded_image_witness :
  Garbage.screen
    (Garbage.run [Garbage.ImagePicked sampleUri; Garbage.PressClassify;
                  Garbage.ImagePicked "file:///cache/other.png";
                  Garbage.FetchSettles 0 (Ok (success dogBody))])
  = {| Garbage.imageUri := Some "file:///cache/other.png";
       Garbage.prediction := Some {| label := JStr "Dog"; confidence := 0.5 |};
       Garbage.isClassifying := false;
       Garbage.cameraVisible := false;
       Garbage.resultModalVisible := true |}.
Proof.
  assert (Hne : sampleUri <> "") by discriminate.
  exact (proj1 (@result_of_superseded_image sampleUri
                  (Ok (success dogBody)) Hne)
           "file:///cache/other.png" _ eq_refl).
Defined.

End ClassifyFlow.

(** ** The camera, the image library and the permissions *)

Module HandlerFacts.
Import Js Expo ScreenInvariants.
Local Open Scope js_scope.

(** X14: on the first screen [handleOpenCamera] either leaves the screen as
    it was, or makes the camera visible and nothing else; the latter only
    when the permission was already held or the request came back
    granted.  When the permission is already held the request plays no
    role. *)
Theorem garbage_camera_needs_permission
  (cameraPermission : option PermissionResponse)
  (requested : result PermissionResponse) (a a' : Garbage.App) :
  GarbageHandlers.handleOpenCamera cameraPermission requested a = Ok a' ->
  Garbage.screen a' = Garbage.screen a
  \/ (a' = Garbage.onScreen (Garbage.setCameraVisible true) a
      /\ (optGranted cameraPermission = true
          \/ exists response,
               requested = Ok response /\ granted response = true)).
Proof.
  unfold GarbageHandlers.handleOpenCamera,
    GarbageHandlers.ensureCameraPermission.
  destruct (optGranted cameraPermission) eqn:Hheld; simpl.
  - intros H. injection H as <-. right. split; [reflexivity | left; reflexivity].
  - destruct requested as [response|e]; simpl; [|discriminate].
    destruct (granted response) eqn:Hg; simpl; intros H; injection H as <-.
    + right. split; [reflexivity|]. right. exists response. split; [reflexivity | assumption].
    + left. reflexivity.
Qed.

Lemma garbage_camera_needs_permission_witness :
  Garbage.screen
    (Garbage.onScreen (Garbage.setCameraVisible true) Garbage.initial)
  = Garbage.screen Garbage.initial
  \/ (Garbage.onScreen (Garbage.setCameraVisible true) Garbage.initial
      = Garbage.onScreen (Garbage.setCameraVisible true) Garbage.initial
      /\ (optGranted (Some deniedResponse) = true
          \/ exists response,
               Ok grantedResponse = Ok response /\ granted response = true)).
Proof.
  exact (@garbage_camera_needs_permission (Some deniedResponse)
           (Ok grantedResponse) Garbage.initial _ eq_refl).
Defined.

(** X15: on the second screen [handleOpenCamera] makes the camera visible
    only when the permission was already held or the request came back
    with a response that grants it; in every other case the state is left
    as it was, and a request that comes back without a grant (or with no
    response at all) is answered by one alert. *)
Theorem road_camera_needs_permission
  (cameraPermission : option PermissionResponse)
  (requested : result (option PermissionResponse)) (a : Road.App) :
  (RoadHandlers.handleOpenCamera cameraPermission requested a
   = {| RoadHandlers.state := Road.onScreen (Road.setIsCameraVisible true) a;
        RoadHandlers.shown := []; RoadHandlers.rejection := None |}
   /\ (optGranted cameraPermission = true
       \/ exists response,
            requested = Ok (Some response) /\ granted response = true))
  \/ (RoadHandlers.state
        (RoadHandlers.handleOpenCamera cameraPermission requested a) = a
      /\ optGranted cameraPermission = false
      /\ ((exists e, requested = Throw e
             /\ RoadHandlers.rejection
                  (RoadHandlers.handleOpenCamera cameraPermission requested a)
                = Some e
             /\ RoadHandlers.shown
                  (RoadHandlers.handleOpenCamera cameraPermission requested a)
                = [])
          \/ (exists permission, requested = Ok permission
                /\ optGranted permission = false
                /\ RoadHandlers.shown
                     (RoadHandlers.handleOpenCamera cameraPermission requested a)
                   = [("Permission needed",
                       "Camera access is required to take a photo.")]))).
Proof.
  unfold RoadHandlers.handleOpenCamera, RoadHandlers.ensureCameraAccess.
  destruct (optGranted cameraPermission) eqn:Hheld; simpl.
  - left. split; [reflexivity | left; reflexivity].
  - destruct requested as [permission|e]; simpl.
    + destruct (optGranted permission) eqn:Hg.
      * left. split; [reflexivity|]. right.
        destruct permission as [response|]; [|discriminate].
        exists response. split; [reflexivity | exact Hg].
      * right. split; [reflexivity|]. split; [reflexivity|].
        right. exists permission.
        split; [reflexivity|]. split; [exact Hg | reflexivity].
    + right. split; [reflexivity|]. split; [reflexivity|].
      left. exists e. split; [reflexivity|]. split; reflexivity.
Qed.







(** X19: [ensureMediaAccess] answers yes exactly when full or limited
    access is already held, or the request comes back with a response that
    gives full or limited access; it shows an alert only when it answers
    no to a response that was given, and stays silent when the request
    comes back with no response. *)
Theorem media_access_answer (mediaPermission : option PermissionResponse)
  (requested : result (option PermissionResponse)) (answer : bool)
  (alerts : list Alert) :
  RoadHandlers.ensureMediaAccess mediaPermission requested
  = Ok (answer, alerts) ->
  answer
  = (optGranted mediaPermission || optLimited mediaPermission
     || match requested with
        | Ok (Some response) => granted response || isLimited response
        | Ok None | Throw _ => false
        end)
  /\ (alerts = []
      \/ (answer = false
          /\ (exists response, requested = Ok (Some response))
          /\ alerts
             = [("Permission needed",
                 "Gallery access is required to pick an image. You can enable access from the device settings.")])).
Proof.
  unfold RoadHandlers.ensureMediaAccess.
  destruct (optGranted mediaPermission || optLimited mediaPermission); simpl.
  - intros H. injection H as <- <-. split; [reflexivity | left; reflexivity].
  - destruct requested as [[response|]|e]; simpl; try discriminate.
    + intros H. injection H as <- <-. split; [reflexivity|].
      destruct (granted response), (isLimited response); simpl;
        try (left; reflexivity).
      right. split; [reflexivity|]. split; [|reflexivity].
      exists response. reflexivity.
    + intros H. injection H as <- <-. split; [reflexivity | left; reflexivity].
Qed.

Lemma media_access_answer_witness :
  true
  = (optGranted None || optLimited None
     || match Ok (Some limitedResponse) with
        | Ok (Some response) => granted response || isLimited response
        | Ok None | Throw _ => false
        end)
  /\ (@nil Alert = []
      \/ (true = false
          /\ (exists response, Ok (Some limitedResponse) = Ok (Some response))
          /\ @nil Alert
             = [("Permission needed",
                 "Gallery access is required to pick an image. You can enable access from the device settings.")])).
Proof.
  exact (@media_access_answer None (Ok (Some limitedResponse)) true []
           eq_refl).
Defined.



(** X21: none of the handlers of the camera and of the image library, on
    either screen, touches the classifying flag or the submissions in
    flight: only [handleClassify] does. *)
Theorem handlers_leave_submissions_alone :
  (forall camera a,
     garbageSameSubmissions a (GarbageHandlers.handleCapturePhoto camera a))
  /\ (forall cameraPermission requested a a',
        GarbageHandlers.handleOpenCamera cameraPermission requested a = Ok a' ->
        garbageSameSubmissions a a')
  /\ (forall permission launched a a',
        GarbageHandlers.handlePickImage permission launched a = Ok a' ->
        garbageSameSubmissions a a')
  /\ (forall camera a,
        roadSameSubmissions a (RoadHandlers.handleTakePhoto camera a))
  /\ (forall cameraPermission requested a,
        roadSameSubmissions a
          (RoadHandlers.state
             (RoadHandlers.handleOpenCamera cameraPermission requested a)))
  /\ (forall mediaPermission requested launched a,
        roadSameSubmissions a
          (RoadHandlers.state
             (RoadHandlers.handlePickImage mediaPermission requested
                launched a))).
Proof.
  unfold garbageSameSubmissions, roadSameSubmissions. repeat apply conj.
  - intros [[[picture|]|e]|] a; split; reflexivity.
  - intros cameraPermission requested a a'.
    unfold GarbageHandlers.handleOpenCamera,
      GarbageHandlers.ensureCameraPermission.
    destruct (optGranted cameraPermission); simpl.
    + intros H. injection H as <-. split; reflexivity.
    + destruct requested as [response|e]; simpl; [|discriminate].
      destruct (granted response); simpl; intros H; injection H as <-;
        split; reflexivity.
  - intros permission launched a a'.
    unfold GarbageHandlers.handlePickImage.
    destruct permission as [response|e]; simpl; [|discriminate].
    destruct (isGrantedStatus (status response)); simpl.
    + destruct launched as [picked|e]; simpl; [|discriminate].
      destruct (canceled picked), (assets picked) as [[|first others]|];
        intros H; injection H as <-; split; reflexivity.
    + intros H. injection H as <-. split; reflexivity.
  - intros [[photo|e]|] a; split; reflexivity.
  - intros cameraPermission requested a.
    unfold RoadHandlers.handleOpenCamera.
    destruct (RoadHandlers.ensureCameraAccess cameraPermission requested)
      as [[|]|e]; split; reflexivity.
  - intros mediaPermission requested launched a.
    unfold RoadHandlers.handlePickImage.
    destruct (RoadHandlers.ensureMediaAccess mediaPermission requested)
      as [[[|] alerts]|e]; try (split; reflexivity).
    destruct launched as [picked|e]; try (split; reflexivity).
    destruct (canceled picked); try (split; reflexivity).
    destruct (RoadHandlers.firstAsset picked) as [asset|];
      try (split; reflexivity).
    destruct (RoadHandlers.notAnImage asset); try (split; reflexivity).
    destruct (truthyString (assetUri asset)); split; reflexivity.
Qed.

End HandlerFacts.

Module ImageKept.
Import Js Http Pipeline Samples.

Lemma step_keeps_image (a : Garbage.App) (e : Garbage.event) :
  Garbage.imageUri (Garbage.screen a) <> None ->
  Garbage.imageUri (Garbage.screen (Garbage.step a e)) <> None.
Proof.
  intros H.
  destruct e as [| i o | captured | picked | | |]; simpl;
    try assumption; try discriminate.
  - destruct (Garbage.classifyDisabled (Garbage.screen a)); [assumption|].
    unfold Garbage.handleClassify_call.
    destruct (Garbage.imageUri (Garbage.screen a)) as [[|c u]|] eqn:Hu;
      simpl; rewrite ?Hu; try discriminate. congruence.
  - destruct (nth_error (Garbage.pending a) i) as [uri|]; [|assumption].
    destruct (classifyImageViaApi (fun _ => o) uri); simpl; assumption.
Qed.

Lemma step_submits_with_image (a : Garbage.App) (e : Garbage.event) :
  (Garbage.pending a <> [] -> Garbage.imageUri (Garbage.screen a) <> None) ->
  Garbage.pending (Garbage.step a e) <> [] ->
  Garbage.imageUri (Garbage.screen (Garbage.step a e)) <> None.
Proof.
  intros Hinv.
  destruct e as [| i o | captured | picked | | |]; simpl;
    try assumption; try discriminate.
  - unfold Garbage.classifyDisabled, Garbage.hasImage.
    destruct (Garbage.imageUri (Garbage.screen a)) as [[|c u]|] eqn:Hu;
      simpl; try (rewrite Hu; assumption).
    destruct (Garbage.isClassifying (Garbage.screen a)); simpl.
    + rewrite Hu. discriminate.
    + unfold Garbage.handleClassify_call. rewrite Hu. simpl. rewrite Hu.
      discriminate.
  - destruct (nth_error (Garbage.pending a) i) as [uri|] eqn:Hnth;
      [|assumption].
    intros _.
    assert (Hp : Garbage.pending a <> []).
    { intros E. rewrite E in Hnth. destruct i; discriminate. }
    specialize (Hinv Hp).
    destruct (classifyImageViaApi (fun _ => o) uri); simpl; assumption.
Qed.

(** X22: the first screen never unsets its image: once one has been
    picked or captured, every later state holds one; and in every state it
    can reach, a submission is in flight only if an image is held. *)
Theorem garbage_image_is_kept (events : list Garbage.event) :
  (forall e,
     Garbage.imageUri (Garbage.screen (Garbage.run events)) <> None ->
     Garbage.imageUri
       (Garbage.screen (Garbage.step (Garbage.run events) e)) <> None)
  /\ (Garbage.pending (Garbage.run events) <> [] ->
      Garbage.imageUri (Garbage.screen (Garbage.run events)) <> None).
Proof.
  split.
  - intros e. apply step_keeps_image.
  - unfold Garbage.run.
    assert (Hgen : forall a,
      (Garbage.pending a <> [] ->
       Garbage.imageUri (Garbage.screen a) <> None) ->
      Garbage.pending (fold_left Garbage.step events a) <> [] ->
      Garbage.imageUri (Garbage.screen (fold_left Garbage.step events a))
      <> None).
    { induction events as [|e events IH]; intros a Hinv; simpl.
      - assumption.
      - apply IH. apply step_submits_with_image. assumption. }
    apply Hgen. intros H. exfalso. apply H. reflexivity.
Qed.

End ImageKept.
